(** * Text-to-SQL assistant: the question -> SQL -> result -> answer pipeline

    A shallow embedding of the two front ends of the repository,
    [gradio_app.py] and [app.py], and of the pipeline they share:
    schema lookup, SQL generation by a chat model, query execution against
    the database, answer generation by a second model call.

    The chat model and the database are external collaborators.  They are
    modelled as handles whose methods are arbitrary state transformers over
    an abstract world [W]; every method may return or raise.  Each call made
    through a handle is appended, with its outcome, to a call log, so that
    statements such as "the model is not called" are statements about the
    log. *)

From stdpp Require Import gmap strings list.
From Stdlib Require Import NArith ZArith Ascii String DecimalString DecimalZ DecimalPos.

Local Open Scope N_scope.
Local Open Scope list_scope.

(** ** Python values *)

Module Py.

(** A Python [str] is a sequence of Unicode code points. *)
Definition char : Type := N.
Abbreviation str := (list N).

(** An ASCII literal of the source, as a [str]. *)
Definition lit (s : string) : str :=
  map N_of_ascii (list_ascii_of_string s).

Definition nl : str := [10].

(** [str.isspace] on one code point, which is the test [str.strip()] applies
    when called without arguments. *)
Definition isspace (c : char) : bool :=
  ((9 <=? c) && (c <=? 13))
  || ((28 <=? c) && (c <=? 32))
  || (c =? 133) || (c =? 160) || (c =? 5760)
  || ((8192 <=? c) && (c <=? 8202))
  || (c =? 8232) || (c =? 8233) || (c =? 8239) || (c =? 8287)
  || (c =? 12288).

Fixpoint lstrip (s : str) : str :=
  match s with
  | [] => []
  | c :: s' => if isspace c then lstrip s' else s
  end.

Definition rstrip (s : str) : str := rev (lstrip (rev s)).

(** [s.strip()] *)
Definition strip (s : str) : str := rstrip (lstrip s).

(** The values the pipeline passes around: [None] or a [str]. *)
Inductive value : Type :=
| VNone
| VStr (s : str).

(** [bool(v)]: [None] and the empty string are falsy. *)
Definition truthy (v : value) : bool :=
  match v with
  | VNone => false
  | VStr [] => false
  | VStr (_ :: _) => true
  end.

(** [str(v)], also what an f-string or a template field renders. *)
Definition str_ (v : value) : str :=
  match v with
  | VNone => lit "None"
  | VStr s => s
  end.

(** An exception, as far as the program looks at it: [str(e)].  The
    collaborators raise subclasses of [Exception], which is what both
    [except Exception] handlers of the source catch. *)
Record Exception : Type := mkException { exc_message : str }.

Inductive outcome (A : Type) : Type :=
| Ok (a : A)
| Raise (e : Exception).
Arguments Ok {A} a.
Arguments Raise {A} e.

End Py.
Export Py.

(** ** Prompt templates *)

Module Prompt.

Inductive role : Type := system | human.

#[global] Instance role_eq_dec : EqDecision role.
Proof. solve_decision. Defined.

(** A template is literal text with named fields, [{name}]. *)
Inductive piece : Type :=
| Text (s : str)
| Field (name : string).

Definition template : Type := list piece.

(** A formatted message, and the model's reply. *)
Definition message : Type := role * str.
Record AIMessage : Type := mkAIMessage { content : str }.

(** Formatting looks every field up in the keyword arguments and renders it;
    a missing field raises.  (Both pipelines bind every field of their
    templates, see [format_sql_prompt] and [format_answer_prompt].) *)
Fixpoint format (t : template) (kw : gmap string value) : outcome str :=
  match t with
  | [] => Ok []
  | Text s :: t' =>
      match format t' kw with
      | Ok r => Ok (s ++ r)
      | Raise e => Raise e
      end
  | Field k :: t' =>
      match kw !! k with
      | None => Raise (mkException (lit "'" ++ lit k ++ lit "'"))
      | Some v =>
          match format t' kw with
          | Ok r => Ok (str_ v ++ r)
          | Raise e => Raise e
          end
      end
  end.

(** [ChatPromptTemplate.from_messages].[format_messages], applied to the
    keyword arguments [kw].  This is the method's body: binding the
    arguments, which fails on a key "self", is left to the statements that
    let the dictionary vary. *)
Fixpoint format_messages (p : list (role * template)) (kw : gmap string value)
  : outcome (list message) :=
  match p with
  | [] => Ok []
  | (r, t) :: p' =>
      match format t kw with
      | Raise e => Raise e
      | Ok s =>
          match format_messages p' kw with
          | Ok ms => Ok ((r, s) :: ms)
          | Raise e => Raise e
          end
      end
  end.

End Prompt.
Export Prompt.

(** ** Collaborators, call log and the pipeline monad *)

Module Runtime.

(** [SQLDatabase]: [run] executes a statement and renders the rows as text
    (the empty string when there are none); [get_table_info] describes the
    schema. *)
Record SQLDatabase (W : Type) : Type := mkSQLDatabase {
  run : str -> W -> outcome str * W;
  get_table_info : W -> outcome str * W
}.
Arguments run {W}.
Arguments get_table_info {W}.

(** [ChatGoogleGenerativeAI]: [invoke] sends the messages to the model. *)
Record ChatModel (W : Type) : Type := mkChatModel {
  invoke : list message -> W -> outcome AIMessage * W
}.
Arguments invoke {W}.

(** One entry of the call log: the call and how it ended. *)
Inductive event : Type :=
| GetTableInfo (r : outcome str)
| Run (query : str) (r : outcome str)
| Invoke (prompt : list message) (r : outcome AIMessage).

(** What the Streamlit page shows, in order. *)
Inductive widget : Type :=
| StError (s : str)
| StSuccess (s : str)
| StSubheader (s : str)
| StWrite (s : str)
| StExpander (label : str)
| StCode (s : str)
| StText (s : str).

Record state (W : Type) : Type := mkState {
  world : W;
  calls : list event;
  page : list widget;
  query_history : list (str * str)
}.
Arguments mkState {W}.
Arguments world {W}.
Arguments calls {W}.
Arguments page {W}.
Arguments query_history {W}.

Definition M (W A : Type) : Type := state W -> outcome A * state W.

Section Monad.
Context {W : Type}.

Definition ret {A} (a : A) : M W A := fun st => (Ok a, st).

Definition raise {A} (e : Exception) : M W A := fun st => (Raise e, st).

Definition bind {A B} (m : M W A) (k : A -> M W B) : M W B :=
  fun st =>
    match m st with
    | (Ok a, st') => k a st'
    | (Raise e, st') => (Raise e, st')
    end.

(** [try: m  except Exception as e: h e] *)
Definition try_except {A} (m : M W A) (h : Exception -> M W A) : M W A :=
  fun st =>
    match m st with
    | (Ok a, st') => (Ok a, st')
    | (Raise e, st') => h e st'
    end.

(** A pure computation that may raise. *)
Definition lift {A} (o : outcome A) : M W A := fun st => (o, st).

Definition log (ev : event) (st : state W) (w : W) : state W :=
  mkState w (calls st ++ [ev]) (page st) (query_history st).

Definition call_get_table_info (db : SQLDatabase W) : M W str :=
  fun st =>
    let (r, w) := get_table_info db (world st) in
    (r, log (GetTableInfo r) st w).

Definition call_run (db : SQLDatabase W) (query : str) : M W str :=
  fun st =>
    let (r, w) := run db query (world st) in
    (r, log (Run query r) st w).

Definition call_invoke (llm : ChatModel W) (prompt : list message)
  : M W AIMessage :=
  fun st =>
    let (r, w) := invoke llm prompt (world st) in
    (r, log (Invoke prompt r) st w).

Definition show (x : widget) : M W unit :=
  fun st =>
    (Ok tt, mkState (world st) (calls st) (page st ++ [x]) (query_history st)).

Definition history_append (entry : str * str) : M W unit :=
  fun st =>
    (Ok tt, mkState (world st) (calls st) (page st) (query_history st ++ [entry])).

End Monad.

Notation "'let!' x ':=' m 'in' k" := (bind m (fun x => k))
  (at level 10, x pattern, m at level 100, k at level 200, only parsing).

End Runtime.
Export Runtime.

(** ** [gradio_app.py] *)

Module GradioApp.

Definition sql_template : template :=
  [ Text (lit "Based on the table schema below, write a SQL query that would answer the user's question:"
          ++ nl ++ lit "    ");
    Field "schema";
    Text (nl ++ nl ++ lit "    Question: ");
    Field "question";
    Text (nl ++ lit "    SQL Query:") ].

Definition sql_instruction : str :=
  lit "Given an input question, convert it to a SQL query. No pre-amble. "
  ++ lit "Please do not return anything else apart from the SQL query, no prefix or suffix quotes, no sql keyword, nothing please".

Definition prompt : list (role * template) :=
  [ (system, [ Text sql_instruction ]); (human, sql_template) ].

Definition answer_template : template :=
  [ Text (lit "Based on the table schema below, question, sql query, and sql response, write a natural language response:"
          ++ nl ++ lit "        ");
    Field "schema";
    Text (nl ++ nl ++ lit "        Question: ");
    Field "question";
    Text (nl ++ lit "        SQL Query: ");
    Field "query";
    Text (nl ++ lit "        SQL Response: ");
    Field "response" ].

Definition answer_instruction : str :=
  lit "Given an input question and SQL response, convert it to a natural language answer. No pre-amble.".

Definition prompt_response : list (role * template) :=
  [ (system, [ Text answer_instruction ]); (human, answer_template) ].

Section Globals.
Context {W : Type}.

(** The module-level handles [db] and [llm]. *)
Variable db : SQLDatabase W.
Variable llm : ChatModel W.

Definition get_schema : M W str := call_get_table_info db.

Definition run_query (query : str) : M W (value * value) :=
  try_except
    (let! result := call_run db query in
     ret (VStr result, VNone))
    (fun e => ret (VNone, VStr (exc_message e))).

(** The closure [write_sql_query()] returns. *)
Definition generate_sql (inputs : gmap string value) : M W str :=
  let! schema := get_schema in
  let inputs_with_schema := <["schema" := VStr schema]> inputs in
  let! formatted_prompt := lift (format_messages prompt inputs_with_schema) in
  let! response := call_invoke llm formatted_prompt in
  ret (strip (content response)).

Definition write_sql_query : gmap string value -> M W str := generate_sql.

Definition process_query (question : str) : M W (str * str * str) :=
  if negb (truthy (VStr (strip question))) then
    ret (lit "Please enter a question.", [], [])
  else
    try_except
      (let sql_generator := write_sql_query in
       let! generated_sql := sql_generator {["question" := VStr question]} in
       let! (raw_results, sql_error) := run_query generated_sql in
       if truthy sql_error then
         ret (lit "SQL Error: " ++ str_ sql_error, generated_sql, [])
       else
         let! schema := get_schema in
         let response_inputs : gmap string value :=
           <["question" := VStr question]>
             (<["query" := VStr generated_sql]>
                (<["schema" := VStr schema]>
                   {["response" := raw_results]})) in
         let! formatted_prompt := lift (format_messages prompt_response response_inputs) in
         let! natural_response := call_invoke llm formatted_prompt in
         ret (content natural_response, generated_sql, str_ raw_results))
      (fun e => ret (lit "Error: " ++ exc_message e, [], [])).

Definition show_schema : M W str := get_schema.

End Globals.

End GradioApp.

(** ** [app.py] *)

Module App.

Definition sql_template : template :=
  [ Text (lit "Based on the table schema below, write a SQL query that would answer the user's question:"
          ++ nl ++ lit "    ");
    Field "schema";
    Text (nl ++ nl ++ lit "    Question: ");
    Field "question";
    Text (nl ++ lit "    SQL Query:") ].

Definition sql_instruction : str :=
  lit "Given an input question, convert it to a SQL query. No pre-amble. "
  ++ lit "Please do not return anything else apart from the SQL query, no prefix or suffix quotes, no sql keyword, nothing please".

Definition prompt : list (role * template) :=
  [ (system, [ Text sql_instruction ]); (human, sql_template) ].

Definition answer_template : template :=
  [ Text (lit "Based on the table schema below, question, sql query, and sql response, write a natural language response:"
          ++ nl ++ lit "    ");
    Field "schema";
    Text (nl ++ nl ++ lit "    Question: ");
    Field "question";
    Text (nl ++ lit "    SQL Query: ");
    Field "query";
    Text (nl ++ lit "    SQL Response: ");
    Field "response" ].

Definition answer_instruction : str :=
  lit "Given an input question and SQL response, convert it to a natural language answer. No pre-amble.".

Definition prompt_response : list (role * template) :=
  [ (system, [ Text answer_instruction ]); (human, answer_template) ].

(** What the page receives from its widgets on one script run. *)
Record widgets : Type := mkWidgets {
  text_area : str;          (* "Enter your question:" *)
  selected_sample : str;    (* the sample select box, [""] when unset *)
  execute_clicked : bool    (* the user pressed "Execute Query" *)
}.

(** [st.button(..., disabled=d)]: a disabled button never fires. *)
Definition button (clicked disabled : bool) : bool := clicked && negb disabled.

Section Handles.
Context {W : Type}.

(** A handle is [None] when [init_database] could not connect. *)
Definition get_schema (db : option (SQLDatabase W)) : M W str :=
  match db with
  | Some d => call_get_table_info d
  | None => ret (lit "Database not connected")
  end.

Definition run_query (db : option (SQLDatabase W)) (query : str)
  : M W (value * value) :=
  match db with
  | Some d =>
      try_except
        (let! result := call_run d query in
         ret (VStr result, VNone))
        (fun e => ret (VNone, VStr (exc_message e)))
  | None => ret (VNone, VStr (lit "Database not connected"))
  end.

Definition generate_sql (llm : ChatModel W) (db : option (SQLDatabase W))
  (inputs : gmap string value) : M W str :=
  let! schema := get_schema db in
  let inputs_with_schema := <["schema" := VStr schema]> inputs in
  let! formatted_prompt := lift (format_messages prompt inputs_with_schema) in
  let! response := call_invoke llm formatted_prompt in
  ret (strip (content response)).

Definition write_sql_query (llm : ChatModel W) (db : option (SQLDatabase W))
  : gmap string value -> M W str := generate_sql llm db.

Definition answer_user_query (query : str) (llm : ChatModel W)
  (db : option (SQLDatabase W)) : M W AIMessage :=
  let sql_generator := write_sql_query llm db in
  let! sql_result := sql_generator {["question" := VStr query]} in
  let! (db_result, error) := run_query db sql_result in
  if truthy error then
    raise (mkException (lit "SQL Error: " ++ str_ error))
  else
    let! schema := get_schema db in
    let response_inputs : gmap string value :=
      <["question" := VStr query]>
        (<["query" := VStr sql_result]>
           (<["schema" := VStr schema]>
              {["response" := db_result]})) in
    let! formatted_prompt := lift (format_messages prompt_response response_inputs) in
    let! response := call_invoke llm formatted_prompt in
    ret response.

(** One run of the page script, from the handles [init_database()] and
    [get_llm()] produced and the widget values.  Titles, the sidebar and the
    information column are static and left out. *)
Definition main (db : option (SQLDatabase W)) (llm : option (ChatModel W))
  (ui : widgets) : M W unit :=
  match db, llm with
  | Some _, Some the_llm =>
      let query_input :=
        if truthy (VStr (selected_sample ui)) then selected_sample ui
        else text_area ui in
      if button (execute_clicked ui) (negb (truthy (VStr (strip query_input)))) then
        if truthy (VStr (strip query_input)) then
          try_except
            (let! response := answer_user_query query_input the_llm db in
             let sql_generator := write_sql_query the_llm db in
             let! generated_sql := sql_generator {["question" := VStr query_input]} in
             let! (raw_results, sql_error) := run_query db generated_sql in
             let! _ := history_append (query_input, content response) in
             let! _ := show (StSuccess (lit "Query executed successfully!")) in
             let! _ := show (StSubheader ([128214] ++ lit " Answer")) in
             let! _ := show (StWrite (content response)) in
             let! _ := show (StExpander ([128269] ++ lit " Generated SQL Query")) in
             let! _ := show (StCode generated_sql) in
             let! _ := show (StExpander ([128202] ++ lit " Raw Results")) in
             if truthy raw_results then show (StText (str_ raw_results))
             else show (StWrite (lit "No results returned")))
            (fun e => show (StError (lit "Error: " ++ exc_message e)))
        else ret tt
      else ret tt
  | _, _ =>
      show (StError (lit "Failed to initialize application. Please check your configuration."))
  end.

End Handles.

End App.

(** ** The widgets around the pipeline *)

(** [gradio_app.py]: the sample drop-down and the schema button. *)

Module GradioUi.

Definition sample_queries : list str :=
  [ lit "Give me the name of 10 Artists";
    lit "Give me the name and artist ID of 10 Artists";
    lit "Give me 10 Albums by the Artist with ID 1";
    lit "Give some Albums by the Artist name Audioslave";
    lit "Give some Tracks by the Artist name Audioslave";
    lit "Show me all tracks longer than 5 minutes";
    lit "Which artist has the most albums?";
    lit "List all genres in the database" ].

(** [sample if sample else ""]: the drop-down hands over [None] when nothing
    is chosen. *)
Definition update_question (sample : value) : str :=
  if truthy sample then str_ sample else [].

(** [gr.update(value=..., visible=...)] *)
Record update : Type := mkUpdate { update_value : str; update_visible : bool }.

Section Globals.
Context {W : Type}.
Variable db : SQLDatabase W.

Definition toggle_schema : M W update :=
  let! schema := GradioApp.show_schema db in
  ret (mkUpdate schema true).

End Globals.

End GradioUi.

(** [app.py]: start-up, the sidebar and the whole page script. *)

Module AppPage.

Definition sample_queries : list str :=
  [ lit "Give me the name of 10 Artists";
    lit "Give me the name and artist ID of 10 Artists";
    lit "Give me 10 Albums by the Artist with ID 1";
    lit "Give some Albums by the Artist name Audioslave";
    lit "Give some Tracks by the Artist name Audioslave" ].

(** What an f-string renders an [int] to. *)
Definition decimal (z : Z) : str :=
  lit (DecimalString.NilZero.string_of_int (Z.to_int z)).

(** [l[-5:]] *)
Definition last_five {A} (l : list A) : list A :=
  drop (List.length l - 5) l.

(** A history button of the sidebar: its label, its widget key and the
    question it stands for. *)
Record history_button : Type := mkHistoryButton {
  button_label : str;
  button_key : str;
  button_query : str
}.

(** The buttons the loop over [enumerate(reversed(query_history[-5:]))]
    creates. *)
Definition history_buttons (history : list (str * str)) : list history_button :=
  match history with
  | [] => []
  | _ :: _ =>
      imap
        (fun i entry =>
           mkHistoryButton
             (lit "Query "
              ++ decimal (Z.of_nat (List.length history) - Z.of_nat i))
             (lit "history_" ++ decimal (Z.of_nat i))
             (fst entry))
        (rev (last_five history))
  end.

(** What the sidebar receives on one script run: which buttons fired, the
    history buttons by widget key. *)
Record sidebar_widgets : Type := mkSidebarWidgets {
  show_schema_clicked : bool;
  history_clicked : str -> bool;
  clear_clicked : bool
}.

(** [st.session_state.selected_query] after the loop over the history
    buttons: the question of the last button that fired, [None] when none
    did and the entry is left as it was. *)
Definition select_query (fired : str -> bool) (buttons : list history_button)
  : option str :=
  foldl (fun selected b => if fired (button_key b) then Some (button_query b)
                           else selected)
        None buttons.

(** How the sidebar leaves the script: the new [selected_query], if any, and
    whether [st.rerun()] was called. *)
Record sidebar_result : Type := mkSidebarResult {
  selected_query : option str;
  rerun : bool
}.

Section Handles.
Context {W : Type}.

Definition get_history : M W (list (str * str)) :=
  fun st => (Ok (query_history st), st).

Definition set_history (h : list (str * str)) : M W unit :=
  fun st => (Ok tt, mkState (world st) (calls st) (page st) h).

(** A constructor of a collaborator, [SQLDatabase.from_uri(...)] or
    [ChatGoogleGenerativeAI(...)]: it may raise, and it is not a call
    through a handle. *)
Definition construct {A} (ctor : W -> outcome A * W) : M W A :=
  fun st =>
    let (r, w) := ctor (world st) in
    (r, mkState w (calls st) (page st) (query_history st)).

(** One evaluation of the body of [init_database] (the resource cache put
    aside). *)
Definition init_database (from_uri : W -> outcome (SQLDatabase W) * W)
  : M W (option (SQLDatabase W)) :=
  try_except
    (let! db := construct from_uri in
     ret (Some db))
    (fun e =>
       let! _ := show (StError (lit "Error connecting to database: " ++ exc_message e)) in
       ret None).

Definition get_llm (new_llm : W -> outcome (ChatModel W) * W)
  : M W (option (ChatModel W)) :=
  try_except
    (let! llm := construct new_llm in
     ret (Some llm))
    (fun e =>
       let! _ := show (StError (lit "Error initializing LLM: " ++ exc_message e)) in
       ret None).

(** The [with st.sidebar:] block of [main]; the two headers are static and
    left out. *)
Definition sidebar (db : option (SQLDatabase W)) (side : sidebar_widgets)
  : M W sidebar_result :=
  let! _ :=
    (if show_schema_clicked side then
       let! _ := show (StExpander (lit "Database Tables")) in
       let! schema := App.get_schema db in
       show (StText schema)
     else ret tt) in
  let! history := get_history in
  let selected := select_query (history_clicked side) (history_buttons history) in
  if clear_clicked side then
    let! _ := set_history [] in
    ret (mkSidebarResult selected true)
  else ret (mkSidebarResult selected false).

(** The whole of [main]: start-up, the guard, the sidebar, then the main
    content, which is [App.main] on handles that passed the guard.  A rerun
    asked for by the sidebar ends the script there. *)
Definition script (from_uri : W -> outcome (SQLDatabase W) * W)
  (new_llm : W -> outcome (ChatModel W) * W)
  (side : sidebar_widgets) (ui : App.widgets) : M W unit :=
  let! db := init_database from_uri in
  let! llm := get_llm new_llm in
  match db, llm with
  | Some _, Some _ =>
      let! s := sidebar db side in
      if rerun s then ret tt else App.main db llm ui
  | _, _ =>
      show (StError (lit "Failed to initialize application. Please check your configuration."))
  end.

End Handles.

End AppPage.

(** ** Test doubles

    Concrete collaborators over a world that counts the calls served. *)

Module Mock.

Definition schema_text : str :=
  lit "CREATE TABLE Artist (ArtistId INTEGER NOT NULL, Name NVARCHAR(120))".

Definition serve {A} (r : outcome A) (w : nat) : outcome A * nat := (r, S w).

(** A database that answers every statement with one row. *)
Definition one_row_db : SQLDatabase nat :=
  mkSQLDatabase nat (fun _ => serve (Ok (lit "[(1,)]"))) (serve (Ok schema_text)).

(** A database that rejects every statement. *)
Definition rejecting_db : SQLDatabase nat :=
  mkSQLDatabase nat
    (fun _ => serve (Raise (mkException (lit "no such table: Invoice2"))))
    (serve (Ok schema_text)).

(** A database whose driver raises an exception without a message, as a bare
    [raise TimeoutError()] or a failed [assert] does. *)
Definition mute_db : SQLDatabase nat :=
  mkSQLDatabase nat (fun _ => serve (Raise (mkException []))) (serve (Ok schema_text)).

(** A model that returns the same text whatever it is asked. *)
Definition const_llm (text : str) : ChatModel nat :=
  mkChatModel nat (fun _ => serve (Ok (mkAIMessage text))).

Definition select1_llm : ChatModel nat :=
  const_llm (lit "  SELECT 1;" ++ nl).

(** A model that follows the system instruction: SQL text for the
    generation prompt, prose for any other. *)
Definition obedient_llm (sql answer : str) : ChatModel nat :=
  mkChatModel nat (fun msgs =>
    serve (Ok (mkAIMessage
      (if bool_decide (head msgs = Some (system, GradioApp.sql_instruction))
       then sql else answer)))).

(** A model whose endpoint is down. *)
Definition down_llm : ChatModel nat :=
  mkChatModel nat (fun _ => serve (Raise (mkException (lit "503 Service Unavailable")))).

Definition question : str := lit "How many artists are there?".

(** What the model sends back for the question, and what is left of it once
    stripped. *)
Definition sql_reply : str := lit "  SELECT COUNT(*) FROM Artist;" ++ nl.
Definition sql_text : str := lit "SELECT COUNT(*) FROM Artist;".
Definition answer_text : str := lit "There is one artist.".

Definition helpful_llm : ChatModel nat := obedient_llm sql_reply answer_text.

Definition start : state nat := mkState 0%nat [] [] [].

End Mock.

(** ** Vocabulary of the statements *)

Module Log.

(** The statements handed to [db.run], in order. *)
Fixpoint executed (l : list event) : list str :=
  match l with
  | [] => []
  | Run q _ :: l' => q :: executed l'
  | _ :: l' => executed l'
  end.

(** The prompts sent to the model, in order. *)
Fixpoint invocations (l : list event) : list (list message) :=
  match l with
  | [] => []
  | Invoke p _ :: l' => p :: invocations l'
  | _ :: l' => invocations l'
  end.

(** A prompt asks for SQL, or for an answer, according to its system
    message. *)
Definition asks_for_sql (p : list message) : bool :=
  bool_decide (head p = Some (system, GradioApp.sql_instruction)).

Definition asks_for_answer (p : list message) : bool :=
  bool_decide (head p = Some (system, GradioApp.answer_instruction)).

(** How many of the logged model calls asked for SQL, and for an answer. *)
Definition sql_generations (l : list event) : nat :=
  List.length (List.filter asks_for_sql (invocations l)).

Definition answer_generations (l : list event) : nat :=
  List.length (List.filter asks_for_answer (invocations l)).

End Log.
Export Log.

(** A string that neither starts nor ends with white space. *)
Definition trimmed (s : str) : bool :=
  match s with
  | [] => true
  | c :: _ => negb (isspace c) && negb (isspace (List.last s c))
  end.

(** The messages the two prompts format to. *)
Definition sql_messages (schema question : str) : list message :=
  [ (system, GradioApp.sql_instruction);
    (human,
     lit "Based on the table schema below, write a SQL query that would answer the user's question:"
     ++ nl ++ lit "    " ++ schema
     ++ nl ++ nl ++ lit "    Question: " ++ question
     ++ nl ++ lit "    SQL Query:") ].

Definition answer_messages (indent schema question query : str) (response : value)
  : list message :=
  [ (system, GradioApp.answer_instruction);
    (human,
     lit "Based on the table schema below, question, sql query, and sql response, write a natural language response:"
     ++ nl ++ indent ++ schema
     ++ nl ++ nl ++ indent ++ lit "Question: " ++ question
     ++ nl ++ indent ++ lit "SQL Query: " ++ query
     ++ nl ++ indent ++ lit "SQL Response: " ++ str_ response) ].

(** The question the Streamlit page works on: the sample, when one is
    selected, else the text area. *)
Definition query_input (ui : App.widgets) : str :=
  if truthy (VStr (App.selected_sample ui)) then App.selected_sample ui
  else App.text_area ui.

(** The widgets of a successful request. *)
Definition success_page (answer sql : str) (raw : value) : list widget :=
  [ StSuccess (lit "Query executed successfully!");
    StSubheader ([128214] ++ lit " Answer");
    StWrite answer;
    StExpander ([128269] ++ lit " Generated SQL Query");
    StCode sql;
    StExpander ([128202] ++ lit " Raw Results");
    if truthy raw then StText (str_ raw) else StWrite (lit "No results returned") ].

Definition display {W} (st : state W) (xs : list widget) : state W :=
  mkState (world st) (calls st) (page st ++ xs) (query_history st).

Definition remember {W} (st : state W) (entry : str * str) : state W :=
  mkState (world st) (calls st) (page st) (query_history st ++ [entry]).

(** What [run_query] hands on as the raw result of an execution. *)
Definition raw_of (res : outcome str) : value :=
  match res with Ok rows => VStr rows | Raise _ => VNone end.

(** Every prompt in a log is built from the schema read just before it and
    the question; an answer prompt also from the statement of the run's
    first execution and what that execution gave. *)
Definition grounded (indent question : str) (new : list event) : Prop :=
  forall i p r,
    new !! i = Some (Invoke p r) ->
    exists j schema,
      i = S j
      /\ new !! j = Some (GetTableInfo (Ok schema))
      /\ (p = sql_messages schema question
          \/ exists sql res,
               new !! 2%nat = Some (Run sql res)
               /\ p = answer_messages indent schema question sql (raw_of res)).

(** The error a failed constructor leaves on the page. *)
Definition shown_error (prefix : str) {A} (r : outcome A) : list widget :=
  match r with
  | Ok _ => []
  | Raise e => [StError (prefix ++ exc_message e)]
  end.

(** A history of seven requests, and the second button of its sidebar. *)
Module MockPage.

Definition history : list (str * str) :=
  [ (lit "q1", lit "a1"); (lit "q2", lit "a2"); (lit "q3", lit "a3");
    (lit "q4", lit "a4"); (lit "q5", lit "a5"); (lit "q6", lit "a6");
    (lit "q7", lit "a7") ].

Definition second_button : AppPage.history_button :=
  AppPage.mkHistoryButton (lit "Query 6") (lit "history_1") (lit "q6").

Definition only_second (k : str) : bool := bool_decide (k = lit "history_1").

(** Keyword arguments with entries the SQL prompt does not ask for. *)
Definition crowded_inputs : gmap string value :=
  <["schema" := VStr (lit "CREATE TABLE Nothing (x INTEGER)")]>
    (<["dialect" := VStr (lit "sqlite")]>
       {["question" := VStr Mock.question]}).

Definition ask : App.widgets := App.mkWidgets Mock.question [] true.

End MockPage.

(** * Properties *)

(** ** [strip] *)

Lemma lstrip_split (s : str) :
  exists ws, s = ws ++ lstrip s /\ forallb isspace ws = true.
Proof.
  induction s as [|c s IH]; simpl.
  - exists []; split; reflexivity.
  - destruct (isspace c) eqn:Hc.
    + destruct IH as [ws [Hs Hws]].
      exists (c :: ws); split.
      * simpl; congruence.
      * simpl; rewrite Hc; exact Hws.
    + exists []; split; reflexivity.
Qed.

Lemma lstrip_head (s : str) (c : N) (t : str) :
  lstrip s = c :: t -> isspace c = false.
Proof.
  induction s as [|a s IH]; simpl; [discriminate|].
  destruct (isspace a) eqn:Ha; [exact IH|].
  intros E; injection E as -> _; exact Ha.
Qed.

Lemma lstrip_fixed (s : str) (c : N) :
  isspace c = false -> lstrip (c :: s) = c :: s.
Proof. intros H; simpl; rewrite H; reflexivity. Qed.

Lemma rstrip_prefix (s : str) :
  exists ws, s = rstrip s ++ ws /\ forallb isspace ws = true.
Proof.
  unfold rstrip.
  destruct (lstrip_split (rev s)) as [ws [Hs Hws]].
  exists (rev ws); split.
  - rewrite <- rev_app_distr, <- Hs, rev_involutive; reflexivity.
  - rewrite forallb_forall in *.
    intros x Hx; apply Hws, in_rev; exact Hx.
Qed.

Lemma rstrip_last (s : str) (d : N) :
  rstrip s <> [] -> isspace (List.last (rstrip s) d) = false.
Proof.
  unfold rstrip.
  destruct (lstrip (rev s)) as [|c t] eqn:E; [intros H; elim H; reflexivity|].
  intros _; simpl.
  rewrite List.last_last.
  exact (lstrip_head _ _ _ E).
Qed.

Lemma rstrip_head (s : str) (c : N) (t : str) :
  rstrip s = c :: t -> exists t', s = c :: t'.
Proof.
  intros E.
  destruct (rstrip_prefix s) as [ws [Hs _]].
  rewrite E in Hs; simpl in Hs; eauto.
Qed.

Lemma strip_trimmed (s : str) : trimmed (strip s) = true.
Proof.
  unfold trimmed.
  destruct (strip s) as [|c t] eqn:E; [reflexivity|].
  apply andb_true_intro; split; apply negb_true_iff.
  - unfold strip in E.
    destruct (rstrip_head _ _ _ E) as [t' Ht'].
    exact (lstrip_head _ _ _ Ht').
  - rewrite <- E; unfold strip.
    apply rstrip_last.
    unfold strip in E; rewrite E; discriminate.
Qed.

Lemma trimmed_strip (s : str) : trimmed s = true -> strip s = s.
Proof.
  unfold trimmed, strip.
  destruct s as [|c t]; [reflexivity|].
  intros H; apply andb_prop in H as [Hc Hl].
  apply negb_true_iff in Hc, Hl.
  rewrite lstrip_fixed by exact Hc.
  unfold rstrip.
  destruct (rev (c :: t)) as [|a r] eqn:E.
  - apply (f_equal (@rev N)) in E; rewrite rev_involutive in E; discriminate.
  - assert (Ha : a = List.last (c :: t) c).
    { apply (f_equal (@rev N)) in E; rewrite rev_involutive in E.
      rewrite E; simpl; rewrite List.last_last; reflexivity. }
    rewrite lstrip_fixed by (rewrite Ha; exact Hl).
    rewrite <- E; apply rev_involutive.
Qed.

Lemma strip_idempotent (s : str) : strip (strip s) = strip s.
Proof. apply trimmed_strip, strip_trimmed. Qed.

(** [strip] only removes white space, and only at the two ends. *)
Lemma strip_decompose (s : str) :
  exists ws1 ws2,
    s = ws1 ++ strip s ++ ws2
    /\ forallb isspace ws1 = true
    /\ forallb isspace ws2 = true.
Proof.
  destruct (lstrip_split s) as [ws1 [Hs H1]].
  destruct (rstrip_prefix (lstrip s)) as [ws2 [Hl H2]].
  exists ws1, ws2. unfold strip.
  rewrite <- Hl. auto.
Qed.

(** ** Prompt formatting *)

Lemma format_sql_prompt (schema question : str) :
  format_messages GradioApp.prompt
    (<["schema" := VStr schema]> {["question" := VStr question]})
  = Ok (sql_messages schema question).
Proof.
  unfold GradioApp.prompt, GradioApp.sql_template, sql_messages.
  cbn [format_messages format].
  rewrite lookup_insert_eq.
  rewrite lookup_insert_ne by discriminate.
  rewrite lookup_singleton_eq.
  cbn [str_].
  rewrite <- !app_assoc, !app_nil_r.
  reflexivity.
Qed.

Lemma app_prompt_same : App.prompt = GradioApp.prompt.
Proof. reflexivity. Qed.

Lemma format_answer_fields (schema question query : str) (response : value) :
  let kw : gmap string value :=
    <["question" := VStr question]>
      (<["query" := VStr query]>
         (<["schema" := VStr schema]> {["response" := response]})) in
  kw !! "schema" = Some (VStr schema)
  /\ kw !! "question" = Some (VStr question)
  /\ kw !! "query" = Some (VStr query)
  /\ kw !! "response" = Some response.
Proof.
  intros kw; unfold kw.
  repeat split; simplify_map_eq; reflexivity.
Qed.

Lemma format_answer_prompt_gradio (schema question query : str) (response : value) :
  format_messages GradioApp.prompt_response
    (<["question" := VStr question]>
       (<["query" := VStr query]>
          (<["schema" := VStr schema]> {["response" := response]})))
  = Ok (answer_messages (lit "        ") schema question query response).
Proof.
  destruct (format_answer_fields schema question query response)
    as (Hs & Hq & Hy & Hr).
  unfold GradioApp.prompt_response, GradioApp.answer_template, answer_messages.
  cbn [format_messages format].
  rewrite Hs, Hq, Hy, Hr.
  cbn [str_].
  rewrite <- !app_assoc, !app_nil_r.
  reflexivity.
Qed.

Lemma format_answer_prompt_app (schema question query : str) (response : value) :
  format_messages App.prompt_response
    (<["question" := VStr question]>
       (<["query" := VStr query]>
          (<["schema" := VStr schema]> {["response" := response]})))
  = Ok (answer_messages (lit "    ") schema question query response).
Proof.
  destruct (format_answer_fields schema question query response)
    as (Hs & Hq & Hy & Hr).
  unfold App.prompt_response, App.answer_template, answer_messages.
  cbn [format_messages format].
  rewrite Hs, Hq, Hy, Hr.
  cbn [str_].
  rewrite <- !app_assoc, !app_nil_r.
  reflexivity.
Qed.

(** ** Unfolding the building blocks *)

(** Case analysis on the next collaborator call of the goal. *)

Ltac split_outcome t E :=
  let a := fresh "a" in
  let e := fresh "e" in
  let w := fresh "w" in
  destruct t as [[a|e] w] eqn:E.

Ltac oracle :=
  match goal with
  | |- context [get_table_info ?d ?w] =>
      let E := fresh "Hinfo" in split_outcome (get_table_info d w) E
  | |- context [invoke ?l ?p ?w] =>
      let E := fresh "Hinvoke" in split_outcome (invoke l p w) E
  | |- context [run ?d ?q ?w] =>
      let E := fresh "Hrun" in split_outcome (run d q w) E
  end;
  cbn [world log calls fst snd].

Section GradioRuns.
Context {W : Type} (db : SQLDatabase W) (llm : ChatModel W).

Lemma gradio_get_schema_run (st : state W) :
  GradioApp.get_schema db st =
  (fst (get_table_info db (world st)),
   log (GetTableInfo (fst (get_table_info db (world st)))) st
       (snd (get_table_info db (world st)))).
Proof.
  unfold GradioApp.get_schema, call_get_table_info.
  destruct (get_table_info db (world st)); reflexivity.
Qed.

Lemma gradio_run_query_run (query : str) (st : state W) :
  GradioApp.run_query db query st =
  match run db query (world st) with
  | (Ok rows, w) => (Ok (VStr rows, VNone), log (Run query (Ok rows)) st w)
  | (Raise e, w) =>
      (Ok (VNone, VStr (exc_message e)), log (Run query (Raise e)) st w)
  end.
Proof.
  unfold GradioApp.run_query, try_except, bind, ret, call_run.
  destruct (run db query (world st)) as [[rows|e] w]; reflexivity.
Qed.

Lemma gradio_generate_sql_run (question : str) (st : state W) :
  GradioApp.generate_sql db llm {["question" := VStr question]} st =
  match get_table_info db (world st) with
  | (Raise e, w1) => (Raise e, log (GetTableInfo (Raise e)) st w1)
  | (Ok schema, w1) =>
      let st1 := log (GetTableInfo (Ok schema)) st w1 in
      match invoke llm (sql_messages schema question) w1 with
      | (Raise e, w2) =>
          (Raise e, log (Invoke (sql_messages schema question) (Raise e)) st1 w2)
      | (Ok r, w2) =>
          (Ok (strip (content r)),
           log (Invoke (sql_messages schema question) (Ok r)) st1 w2)
      end
  end.
Proof.
  unfold GradioApp.generate_sql, GradioApp.get_schema, bind, lift, ret,
    call_get_table_info, call_invoke.
  destruct (get_table_info db (world st)) as [[schema|e] w1]; [|reflexivity].
  rewrite format_sql_prompt.
  cbn [world log].
  destruct (invoke llm (sql_messages schema question) w1) as [[r|e] w2];
    reflexivity.
Qed.

Lemma gradio_answer_phase_run (question sql : str) (raw : value) (st : state W) :
  (let! schema := GradioApp.get_schema db in
   let response_inputs : gmap string value :=
     <["question" := VStr question]>
       (<["query" := VStr sql]>
          (<["schema" := VStr schema]> {["response" := raw]})) in
   let! formatted_prompt := lift (format_messages GradioApp.prompt_response response_inputs) in
   let! natural_response := call_invoke llm formatted_prompt in
   ret (content natural_response, sql, str_ raw)) st =
  match get_table_info db (world st) with
  | (Raise e, w1) => (Raise e, log (GetTableInfo (Raise e)) st w1)
  | (Ok schema, w1) =>
      let st1 := log (GetTableInfo (Ok schema)) st w1 in
      let msgs := answer_messages (lit "        ") schema question sql raw in
      match invoke llm msgs w1 with
      | (Raise e, w2) => (Raise e, log (Invoke msgs (Raise e)) st1 w2)
      | (Ok reply, w2) =>
          (Ok (content reply, sql, str_ raw), log (Invoke msgs (Ok reply)) st1 w2)
      end
  end.
Proof.
  unfold bind at 1. rewrite gradio_get_schema_run.
  oracle; [|reflexivity].
  cbv zeta. unfold bind at 1, lift.
  rewrite format_answer_prompt_gradio.
  unfold bind, call_invoke, ret. cbn [world log].
  oracle; reflexivity.
Qed.

Lemma gradio_process_query_run (question : str) (st : state W) :
  strip question <> [] ->
  GradioApp.process_query db llm question st =
  match get_table_info db (world st) with
  | (Raise e, w1) =>
      (Ok (lit "Error: " ++ exc_message e, [], []),
       log (GetTableInfo (Raise e)) st w1)
  | (Ok schema, w1) =>
      let st1 := log (GetTableInfo (Ok schema)) st w1 in
      let ask := sql_messages schema question in
      match invoke llm ask w1 with
      | (Raise e, w2) =>
          (Ok (lit "Error: " ++ exc_message e, [], []),
           log (Invoke ask (Raise e)) st1 w2)
      | (Ok reply, w2) =>
          let st2 := log (Invoke ask (Ok reply)) st1 w2 in
          let sql := strip (content reply) in
          let (res, w3) := run db sql w2 in
          let st3 := log (Run sql res) st2 w3 in
          let raw := match res with Ok rows => VStr rows | Raise _ => VNone end in
          let err :=
            match res with Ok _ => VNone | Raise e => VStr (exc_message e) end in
          if truthy err then
            (Ok (lit "SQL Error: " ++ str_ err, sql, []), st3)
          else
            match get_table_info db w3 with
            | (Raise e, w4) =>
                (Ok (lit "Error: " ++ exc_message e, [], []),
                 log (GetTableInfo (Raise e)) st3 w4)
            | (Ok schema2, w4) =>
                let st4 := log (GetTableInfo (Ok schema2)) st3 w4 in
                let tell := answer_messages (lit "        ") schema2 question sql raw in
                match invoke llm tell w4 with
                | (Raise e, w5) =>
                    (Ok (lit "Error: " ++ exc_message e, [], []),
                     log (Invoke tell (Raise e)) st4 w5)
                | (Ok answer, w5) =>
                    (Ok (content answer, sql, str_ raw),
                     log (Invoke tell (Ok answer)) st4 w5)
                end
            end
      end
  end.
Proof.
  intros Hq.
  unfold GradioApp.process_query.
  destruct (strip question) as [|c t]; [elim Hq; reflexivity|].
  cbn [truthy negb].
  unfold try_except, bind at 1, GradioApp.write_sql_query.
  rewrite gradio_generate_sql_run.
  oracle; [|reflexivity].
  cbv zeta. oracle; [|reflexivity].
  unfold bind at 1. rewrite gradio_run_query_run. cbn [world log].
  oracle.
  - cbn [truthy]. rewrite gradio_answer_phase_run. cbn [world log].
    oracle; [|reflexivity]. cbv zeta. oracle; reflexivity.
  - destruct (exc_message e) as [|m ms] eqn:Hm; cbn [truthy].
    + rewrite gradio_answer_phase_run. cbn [world log].
      oracle; [|reflexivity]. cbv zeta. oracle; reflexivity.
    + reflexivity.
Qed.

End GradioRuns.

Section AppRuns.
Context {W : Type} (db : SQLDatabase W) (llm : ChatModel W).

Lemma app_get_schema_some : App.get_schema (Some db) = GradioApp.get_schema db.
Proof. reflexivity. Qed.

Lemma app_run_query_some (query : str) :
  App.run_query (Some db) query = GradioApp.run_query db query.
Proof. reflexivity. Qed.

Lemma app_generate_sql_some (inputs : gmap string value) :
  App.generate_sql llm (Some db) inputs = GradioApp.generate_sql db llm inputs.
Proof. reflexivity. Qed.

Lemma app_answer_phase_run (question sql : str) (raw : value) (st : state W) :
  (let! schema := App.get_schema (Some db) in
   let response_inputs : gmap string value :=
     <["question" := VStr question]>
       (<["query" := VStr sql]>
          (<["schema" := VStr schema]> {["response" := raw]})) in
   let! formatted_prompt := lift (format_messages App.prompt_response response_inputs) in
   let! response := call_invoke llm formatted_prompt in
   ret response) st =
  match get_table_info db (world st) with
  | (Raise e, w1) => (Raise e, log (GetTableInfo (Raise e)) st w1)
  | (Ok schema, w1) =>
      let st1 := log (GetTableInfo (Ok schema)) st w1 in
      let tell := answer_messages (lit "    ") schema question sql raw in
      match invoke llm tell w1 with
      | (Raise e, w2) => (Raise e, log (Invoke tell (Raise e)) st1 w2)
      | (Ok reply, w2) => (Ok reply, log (Invoke tell (Ok reply)) st1 w2)
      end
  end.
Proof.
  unfold bind at 1. rewrite app_get_schema_some, gradio_get_schema_run.
  oracle; [|reflexivity].
  cbv zeta. unfold bind at 1, lift.
  rewrite format_answer_prompt_app.
  unfold bind, call_invoke, ret. cbn [world log].
  oracle; reflexivity.
Qed.

Lemma app_answer_user_query_run (query : str) (st : state W) :
  App.answer_user_query query llm (Some db) st =
  match get_table_info db (world st) with
  | (Raise e, w1) => (Raise e, log (GetTableInfo (Raise e)) st w1)
  | (Ok schema, w1) =>
      let st1 := log (GetTableInfo (Ok schema)) st w1 in
      let ask := sql_messages schema query in
      match invoke llm ask w1 with
      | (Raise e, w2) => (Raise e, log (Invoke ask (Raise e)) st1 w2)
      | (Ok reply, w2) =>
          let st2 := log (Invoke ask (Ok reply)) st1 w2 in
          let sql := strip (content reply) in
          let (res, w3) := run db sql w2 in
          let st3 := log (Run sql res) st2 w3 in
          let raw := match res with Ok rows => VStr rows | Raise _ => VNone end in
          let err :=
            match res with Ok _ => VNone | Raise e => VStr (exc_message e) end in
          if truthy err then
            (Raise (mkException (lit "SQL Error: " ++ str_ err)), st3)
          else
            match get_table_info db w3 with
            | (Raise e, w4) => (Raise e, log (GetTableInfo (Raise e)) st3 w4)
            | (Ok schema2, w4) =>
                let st4 := log (GetTableInfo (Ok schema2)) st3 w4 in
                let tell := answer_messages (lit "    ") schema2 query sql raw in
                match invoke llm tell w4 with
                | (Raise e, w5) => (Raise e, log (Invoke tell (Raise e)) st4 w5)
                | (Ok answer, w5) => (Ok answer, log (Invoke tell (Ok answer)) st4 w5)
                end
            end
      end
  end.
Proof.
  unfold App.answer_user_query, App.write_sql_query.
  cbv zeta. unfold bind at 1.
  rewrite app_generate_sql_some, gradio_generate_sql_run.
  oracle; [|reflexivity].
  cbv zeta. oracle; [|reflexivity].
  unfold bind at 1. rewrite app_run_query_some, gradio_run_query_run. cbn [world log].
  oracle.
  - cbn [truthy]. rewrite app_answer_phase_run. cbn [world log].
    oracle; [|reflexivity]. cbv zeta. oracle; reflexivity.
  - destruct (exc_message e) as [|m ms] eqn:Hm; cbn [truthy].
    + rewrite app_answer_phase_run. cbn [world log].
      oracle; [|reflexivity]. cbv zeta. oracle; reflexivity.
    + reflexivity.
Qed.

Lemma app_main_run (ui : App.widgets) (st : state W) :
  App.execute_clicked ui = true ->
  strip (query_input ui) <> [] ->
  App.main (Some db) (Some llm) ui st =
  match App.answer_user_query (query_input ui) llm (Some db) st with
  | (Raise e, st1) => (Ok tt, display st1 [StError (lit "Error: " ++ exc_message e)])
  | (Ok response, st1) =>
      match GradioApp.generate_sql db llm {["question" := VStr (query_input ui)]} st1 with
      | (Raise e, st2) =>
          (Ok tt, display st2 [StError (lit "Error: " ++ exc_message e)])
      | (Ok generated_sql, st2) =>
          let (res, w3) := run db generated_sql (world st2) in
          let st3 := log (Run generated_sql res) st2 w3 in
          let raw_results :=
            match res with Ok rows => VStr rows | Raise _ => VNone end in
          (Ok tt,
           display (remember st3 (query_input ui, content response))
             (success_page (content response) generated_sql raw_results))
      end
  end.
Proof.
  intros Hclick Hq.
  unfold App.main. fold (query_input ui).
  rewrite Hclick.
  destruct (strip (query_input ui)) as [|c t] eqn:Hs; [elim Hq; reflexivity|].
  cbn [truthy negb App.button andb].
  unfold try_except, bind at 1.
  destruct (App.answer_user_query (query_input ui) llm (Some db) st) as [[response|e] st1];
    [|reflexivity].
  unfold App.write_sql_query. cbv zeta. unfold bind at 1.
  rewrite app_generate_sql_some.
  destruct (GradioApp.generate_sql db llm _ st1) as [[generated_sql|e] st2];
    [|reflexivity].
  unfold bind at 1. rewrite app_run_query_some, gradio_run_query_run.
  destruct (run db generated_sql (world st2)) as [[rows|e] w3].
  - unfold bind, history_append, show, display, remember, success_page.
    cbn [world calls page query_history log].
    destruct (truthy (VStr rows)); unfold show; cbn [world calls page query_history];
      rewrite <- !app_assoc; reflexivity.
  - unfold bind, history_append, show, display, remember, success_page.
    cbn [world calls page query_history log truthy].
    rewrite <- !app_assoc; reflexivity.
Qed.
End AppRuns.

(** ** Reading the call log *)

Lemma asks_for_sql_sql (schema question : str) :
  asks_for_sql (sql_messages schema question) = true.
Proof. reflexivity. Qed.

Lemma asks_for_answer_sql (schema question : str) :
  asks_for_answer (sql_messages schema question) = false.
Proof. reflexivity. Qed.

Lemma asks_for_answer_answer (indent schema question query : str) (raw : value) :
  asks_for_answer (answer_messages indent schema question query raw) = true.
Proof. reflexivity. Qed.

Lemma asks_for_sql_answer (indent schema question query : str) (raw : value) :
  asks_for_sql (answer_messages indent schema question query raw) = false.
Proof. reflexivity. Qed.

Lemma executed_app (l k : list event) :
  executed (l ++ k) = executed l ++ executed k.
Proof.
  induction l as [|[r|q r|p r] l IH]; simpl; congruence.
Qed.

Lemma invocations_app (l k : list event) :
  invocations (l ++ k) = invocations l ++ invocations k.
Proof.
  induction l as [|[r|q r|p r] l IH]; simpl; congruence.
Qed.

Lemma sql_generations_cons (ev : event) (l : list event) :
  sql_generations (ev :: l) =
  match ev with
  | Invoke p _ => if asks_for_sql p then S (sql_generations l) else sql_generations l
  | _ => sql_generations l
  end.
Proof.
  unfold sql_generations.
  destruct ev as [r|q r|p r]; cbn [invocations List.filter]; try reflexivity.
  destruct (asks_for_sql p); reflexivity.
Qed.

Lemma answer_generations_cons (ev : event) (l : list event) :
  answer_generations (ev :: l) =
  match ev with
  | Invoke p _ =>
      if asks_for_answer p then S (answer_generations l) else answer_generations l
  | _ => answer_generations l
  end.
Proof.
  unfold answer_generations.
  destruct ev as [r|q r|p r]; cbn [invocations List.filter]; try reflexivity.
  destruct (asks_for_answer p); reflexivity.
Qed.

Lemma sql_generations_nil : sql_generations [] = 0%nat.
Proof. reflexivity. Qed.

Lemma answer_generations_nil : answer_generations [] = 0%nat.
Proof. reflexivity. Qed.

Create Rewrite HintDb log_count.
#[local] Hint Rewrite sql_generations_cons answer_generations_cons
  sql_generations_nil answer_generations_nil
  asks_for_sql_sql asks_for_answer_sql asks_for_answer_answer asks_for_sql_answer
  : log_count.

(** Count the generations and executions of an explicit log. *)
Ltac count_log :=
  autorewrite with log_count; cbn [executed List.length]; try reflexivity; try lia.

(** Bring the log of a finished run to the form [calls st ++ new]. *)
Ltac settle_log :=
  cbn [calls log world page query_history display remember];
  rewrite <- ?app_assoc; cbn [app].

(** Split a run into its cases, one per outcome of each collaborator call. *)
Ltac run_cases :=
  repeat first
    [ progress cbv zeta
    | oracle
    | match goal with
      | |- context [truthy (VStr (exc_message ?e))] =>
          let E := fresh "Hmsg" in destruct (exc_message e) eqn:E
      end
    | progress cbn [truthy str_] ].

(** Membership of an event in an explicit log. *)
Ltac in_log H :=
  repeat match type of H with
         | _ ∈ _ :: _ => apply elem_of_cons in H as [H|H]
         | _ ∈ [] => apply elem_of_nil in H; contradiction
         end;
  simplify_eq.

(** ** One run of the Streamlit page *)

Section PageRuns.
Context {W : Type}.

Lemma app_main_idle (db : SQLDatabase W) (llm : ChatModel W)
  (ui : App.widgets) (st : state W) :
  App.execute_clicked ui = false \/ strip (query_input ui) = [] ->
  App.main (Some db) (Some llm) ui st = (Ok tt, st).
Proof.
  intros H. unfold App.main. fold (query_input ui).
  destruct H as [H|H]; rewrite H.
  - reflexivity.
  - cbn [truthy negb]. destruct (App.execute_clicked ui); reflexivity.
Qed.

Lemma app_main_shapes (db : SQLDatabase W) (llm : ChatModel W)
  (ui : App.widgets) (st : state W) :
  exists new st',
    App.main (Some db) (Some llm) ui st = (Ok tt, st')
    /\ calls st' = calls st ++ new
    /\ Forall (fun q => trimmed q = true) (executed new)
    /\ ((st' = st /\ new = []
         /\ (App.execute_clicked ui = false \/ strip (query_input ui) = []))
        \/ (exists e,
              page st' = page st ++ [StError (lit "Error: " ++ exc_message e)]
              /\ query_history st' = query_history st
              /\ (sql_generations new <= 2)%nat
              /\ (List.length (executed new) <= 2)%nat
              /\ (answer_generations new <= 1)%nat)
        \/ (exists answer sql1 sql raw,
              page st' = page st ++ success_page answer sql raw
              /\ query_history st' = query_history st ++ [(query_input ui, answer)]
              /\ executed new = [sql1; sql]
              /\ sql_generations new = 2%nat
              /\ answer_generations new = 1%nat)).
Proof.
  destruct (App.execute_clicked ui) eqn:Hclick.
  2:{ exists [], st. rewrite app_main_idle by (left; exact Hclick).
      rewrite app_nil_r. repeat split; [constructor|]. left. auto. }
  destruct (strip (query_input ui)) as [|c t] eqn:Hq.
  { exists [], st. rewrite app_main_idle by (right; exact Hq).
    rewrite app_nil_r. repeat split; [constructor|]. left. auto. }
  rewrite app_main_run, app_answer_user_query_run
    by first [exact Hclick | rewrite Hq; discriminate].
  run_cases; rewrite ?gradio_generate_sql_run; run_cases;
    (do 2 eexists; split; [reflexivity|]; split; [settle_log; reflexivity|]);
    (split; [cbn [executed];
            repeat (constructor 2; [apply strip_trimmed|]); constructor 1|]);
    first
      [ right; left; eexists; split; [reflexivity|]; split; [reflexivity|];
        repeat split; count_log
      | right; right; do 4 eexists; split; [reflexivity|]; split; [reflexivity|];
        split; [reflexivity|]; split; count_log ].
Qed.

End PageRuns.

Section Claims.
Context {W : Type}.

(** ** Query execution *)

(** C2.  Whatever the database does with a statement, [run_query] returns
    and does not raise: when [db.run] returns rows, the pair is (rows, None);
    when [db.run] raises, the pair is (None, the text of the exception).  The
    [app.py] version agrees with the [gradio_app.py] one on a live handle,
    and for every handle the two components are never both set. *)
Theorem run_query_tagged (db : SQLDatabase W) (query : str) (st : state W) :
  match run db query (world st) with
  | (Ok rows, w) =>
      GradioApp.run_query db query st
      = (Ok (VStr rows, VNone), log (Run query (Ok rows)) st w)
  | (Raise e, w) =>
      GradioApp.run_query db query st
      = (Ok (VNone, VStr (exc_message e)), log (Run query (Raise e)) st w)
  end
  /\ App.run_query (Some db) query st = GradioApp.run_query db query st
  /\ forall handle : option (SQLDatabase W),
       exists result error st',
         App.run_query handle query st = (Ok (result, error), st')
         /\ (result = VNone \/ error = VNone).
Proof.
  split; [|split].
  - rewrite gradio_run_query_run.
    destruct (run db query (world st)) as [[rows|e] w]; reflexivity.
  - reflexivity.
  - intros [d|].
    + rewrite app_run_query_some, gradio_run_query_run.
      destruct (run d query (world st)) as [[rows|e] w]; eauto 10.
    + cbn. unfold ret. eauto 10.
Qed.

(** C10.  In [app.py], [run_query] on an absent handle returns
    (None, "Database not connected") for every statement, and leaves the
    world, the call log and the page as they were: the database is not
    touched. *)
Theorem run_query_not_connected (query : str) (st : state W) :
  exists st',
    App.run_query None query st
    = (Ok (VNone, VStr (lit "Database not connected")), st')
    /\ world st' = world st
    /\ calls st' = calls st
    /\ executed (calls st') = executed (calls st).
Proof.
  exists st. unfold App.run_query, ret. repeat split.
Qed.

(** ** Missing handles *)

(** C7, as amended.  In [app.py], [get_schema] on an absent handle does not
    fail: it returns the text "Database not connected" and touches nothing.
    The page script, when either handle is absent, shows one initialisation
    error and stops: no schema read, no model call, no execution.  In
    [gradio_app.py], where the handle is a module global, a schema read that
    raises makes [generate_sql] raise the same exception with the model not
    called. *)
Theorem missing_handle_is_reported_not_raised
  (db : option (SQLDatabase W)) (llm : option (ChatModel W))
  (ui : App.widgets) (st : state W)
  (live : SQLDatabase W) (model : ChatModel W) (question : str) :
  App.get_schema None st = (Ok (lit "Database not connected"), st)
  /\ App.main None llm ui st
     = (Ok tt,
        display st
          [StError (lit "Failed to initialize application. Please check your configuration.")])
  /\ App.main db None ui st
     = (Ok tt,
        display st
          [StError (lit "Failed to initialize application. Please check your configuration.")])
  /\ calls (display st
              [StError (lit "Failed to initialize application. Please check your configuration.")])
     = calls st
  /\ match get_table_info live (world st) with
     | (Raise e, w) =>
         GradioApp.generate_sql live model {["question" := VStr question]} st
         = (Raise e, log (GetTableInfo (Raise e)) st w)
     | (Ok _, _) => True
     end.
Proof.
  split; [reflexivity|].
  split; [destruct llm; reflexivity|].
  split; [destruct db; reflexivity|].
  split; [reflexivity|].
  rewrite gradio_generate_sql_run.
  destruct (get_table_info live (world st)) as [[schema|e] w]; [exact I|reflexivity].
Qed.

(** ** The blank question *)

(** C5, as amended.  For a question that is empty once stripped,
    [process_query] returns "Please enter a question." with an empty SQL and
    an empty raw result and leaves the state untouched (no model call, no
    database call); the Streamlit page, whose button is disabled on such an
    input, does nothing at all: no call, and no message either. *)
Theorem blank_question_short_circuits
  (db : SQLDatabase W) (llm : ChatModel W) (question : str) (st : state W) :
  strip question = [] ->
  GradioApp.process_query db llm question st
  = (Ok (lit "Please enter a question.", [], []), st)
  /\ forall ui : App.widgets,
       query_input ui = question ->
       App.main (Some db) (Some llm) ui st = (Ok tt, st).
Proof.
  intros Hq. split.
  - unfold GradioApp.process_query. rewrite Hq. reflexivity.
  - intros ui Hui.
    unfold App.main. fold (query_input ui).
    rewrite Hui, Hq. cbn [truthy negb].
    destruct (App.execute_clicked ui); reflexivity.
Qed.


(** ** [process_query] as a whole *)

(** X16.  [process_query] returns a triple of strings and does not raise,
    for every question and every behaviour of the model and the database.
    An exception raised by a schema read or a model call is rendered as
    "Error: ..." in the first component, and one raised by the execution
    with a message that is not empty, as "SQL Error: ...". *)
Theorem process_query_total
  (db : SQLDatabase W) (llm : ChatModel W) (question : str) (st : state W) :
  exists answer sql raw new st',
    GradioApp.process_query db llm question st = (Ok (answer, sql, raw), st')
    /\ calls st' = calls st ++ new
    /\ (forall e, GetTableInfo (Raise e) ∈ new ->
          answer = lit "Error: " ++ exc_message e)
    /\ (forall p e, Invoke p (Raise e) ∈ new ->
          answer = lit "Error: " ++ exc_message e)
    /\ (forall q e, Run q (Raise e) ∈ new -> exc_message e <> [] ->
          answer = lit "SQL Error: " ++ exc_message e).
Proof.
  destruct (strip question) as [|c t] eqn:Hq.
  - unfold GradioApp.process_query. rewrite Hq. cbn [truthy negb]. unfold ret.
    exists (lit "Please enter a question."), [], [], [], st.
    rewrite app_nil_r.
    repeat split; intros; in_log H.
  - rewrite gradio_process_query_run by (rewrite Hq; discriminate).
    run_cases;
      (do 5 eexists; split; [reflexivity|]; split; [settle_log; reflexivity|]);
      repeat split; intros; in_log H; try reflexivity; try congruence.
Qed.


(** C9.  In [gradio_app.py], the SQL string [process_query] returns is the
    one statement it handed to [db.run], character for character; the only
    runs where it is not are the prompt-for-input run and the runs that end
    in the outer handler, which return "Error: ..." and an empty SQL. *)
Theorem displayed_sql_is_executed_sql
  (db : SQLDatabase W) (llm : ChatModel W) (question : str) (st : state W) :
  exists answer sql raw new st',
    GradioApp.process_query db llm question st = (Ok (answer, sql, raw), st')
    /\ calls st' = calls st ++ new
    /\ (executed new = [sql]
        \/ (sql = [] /\ raw = []
            /\ ((answer = lit "Please enter a question." /\ new = [])
                \/ exists e,
                     answer = lit "Error: " ++ exc_message e
                     /\ (last new = Some (GetTableInfo (Raise e))
                         \/ exists p, last new = Some (Invoke p (Raise e)))))).
Proof.
  destruct (strip question) as [|c t] eqn:Hq.
  - unfold GradioApp.process_query. rewrite Hq. cbn [truthy negb]. unfold ret.
    exists (lit "Please enter a question."), [], [], [], st.
    rewrite app_nil_r. repeat split. right. auto.
  - rewrite gradio_process_query_run by (rewrite Hq; discriminate).
    run_cases;
      (do 5 eexists; split; [reflexivity|]; split; [settle_log; reflexivity|]);
      first
        [ left; reflexivity
        | right; split; [reflexivity|]; split; [reflexivity|];
          right; eexists; split; [reflexivity|];
          first [ left; reflexivity | right; eexists; reflexivity ] ].
Qed.

(** ** SQL generation *)

(** C4.  When the schema read succeeds and the model replies,
    [generate_sql] returns the reply's text stripped, in both files: the
    reply is that result with white space, and nothing else, before and
    after it, and the result neither starts nor ends with white space.
    Every statement that a run of [process_query] or of the Streamlit page
    hands to [db.run] neither starts nor ends with white space. *)
Theorem generate_sql_strips
  (db : SQLDatabase W) (llm : ChatModel W) (question : str) (st : state W)
  (schema : str) (w1 : W) (reply : AIMessage) (w2 : W) :
  get_table_info db (world st) = (Ok schema, w1) ->
  invoke llm (sql_messages schema question) w1 = (Ok reply, w2) ->
  let st2 :=
    log (Invoke (sql_messages schema question) (Ok reply))
      (log (GetTableInfo (Ok schema)) st w1) w2 in
  GradioApp.generate_sql db llm {["question" := VStr question]} st
  = (Ok (strip (content reply)), st2)
  /\ App.generate_sql llm (Some db) {["question" := VStr question]} st
     = (Ok (strip (content reply)), st2)
  /\ (exists ws1 ws2,
        content reply = ws1 ++ strip (content reply) ++ ws2
        /\ forallb isspace ws1 = true
        /\ forallb isspace ws2 = true)
  /\ trimmed (strip (content reply)) = true
  /\ (exists new,
        calls (snd (GradioApp.process_query db llm question st)) = calls st ++ new
        /\ Forall (fun q => trimmed q = true) (executed new))
  /\ (forall ui,
        exists new,
          calls (snd (App.main (Some db) (Some llm) ui st)) = calls st ++ new
          /\ Forall (fun q => trimmed q = true) (executed new)).
Proof.
  intros Hinfo Hinvoke st2.
  assert (Hgen : GradioApp.generate_sql db llm {["question" := VStr question]} st
                 = (Ok (strip (content reply)), st2)).
  { rewrite gradio_generate_sql_run, Hinfo. cbv zeta. rewrite Hinvoke. reflexivity. }
  split; [exact Hgen|].
  split; [rewrite app_generate_sql_some; exact Hgen|].
  split; [apply strip_decompose|].
  split; [apply strip_trimmed|].
  split.
  - destruct (strip question) as [|c t] eqn:Hq.
    + exists []. unfold GradioApp.process_query. rewrite Hq.
      cbn. rewrite app_nil_r. split; [reflexivity|constructor].
    + rewrite gradio_process_query_run by (rewrite Hq; discriminate).
      clear Hgen Hinfo Hinvoke st2.
      run_cases; cbn [snd];
        (eexists; split; [settle_log; reflexivity|]);
        cbn [executed];
        repeat (constructor 2; [apply strip_trimmed|]); constructor 1.
  - intros ui.
    destruct (app_main_shapes db llm ui st) as (new & st' & Hrun & Hlog & Htrim & _).
    exists new. rewrite Hrun. cbn [snd]. auto.
Qed.


(** ** The shapes of an answer *)

(** C1, as amended.  For a question that is not blank, and leaving aside the
    runs in which the execution raises an exception without a message, about
    which nothing is stated, [process_query] returns exactly one of three
    shapes, told apart by the last call of the run: ("Error: " + message,
    "", "") when a schema read or a model call raised; ("SQL Error: " +
    message, sql, "") when the execution raised with a message; (the reply of
    the answer model, sql, raw) when the execution returned, raw being the
    text [db.run] returned.  In the last two, sql is the stripped reply of
    the SQL model and the statement executed.  The Streamlit page shows
    either one "Error: ..." message or the page of a successful request. *)
Theorem answer_shapes
  (db : SQLDatabase W) (llm : ChatModel W) (question : str) (st : state W) :
  strip question <> [] ->
  (exists answer sql raw new st',
     GradioApp.process_query db llm question st = (Ok (answer, sql, raw), st')
     /\ calls st' = calls st ++ new
     /\ ((exists q e, Run q (Raise e) ∈ new /\ exc_message e = [])
         \/ (exists e,
               (last new = Some (GetTableInfo (Raise e))
                \/ exists p, last new = Some (Invoke p (Raise e)))
               /\ answer = lit "Error: " ++ exc_message e
               /\ sql = [] /\ raw = [])
         \/ (exists schema reply e,
               Invoke (sql_messages schema question) (Ok reply) ∈ new
               /\ sql = strip (content reply)
               /\ last new = Some (Run sql (Raise e))
               /\ exc_message e <> []
               /\ answer = lit "SQL Error: " ++ exc_message e
               /\ raw = [])
         \/ (exists schema reply rows tell final,
               Invoke (sql_messages schema question) (Ok reply) ∈ new
               /\ sql = strip (content reply)
               /\ executed new = [sql]
               /\ Run sql (Ok rows) ∈ new
               /\ raw = rows
               /\ last new = Some (Invoke tell (Ok final))
               /\ asks_for_answer tell = true
               /\ answer = content final)))
  /\ (forall ui,
        App.execute_clicked ui = true ->
        query_input ui = question ->
        exists st',
          App.main (Some db) (Some llm) ui st = (Ok tt, st')
          /\ ((exists e,
                 page st' = page st ++ [StError (lit "Error: " ++ exc_message e)])
              \/ (exists answer sql raw,
                    page st' = page st ++ success_page answer sql raw))).
Proof.
  intros Hq. split.
  - rewrite gradio_process_query_run by exact Hq.
    run_cases;
      (do 5 eexists; split; [reflexivity|]; split; [settle_log; reflexivity|]);
      first
        [ (* execution raised without a message: nothing is stated *)
          left; do 2 eexists;
          split; [do 2 apply list_elem_of_further; apply list_elem_of_here|];
          assumption
        | (* a model call or a schema read raised *)
          right; left; eexists;
          split; [first [left; reflexivity | right; eexists; reflexivity]|];
          repeat split; reflexivity
        | (* execution raised, with a message *)
          right; right; left; do 3 eexists;
          split; [apply list_elem_of_further, list_elem_of_here|];
          split; [reflexivity|]; split; [reflexivity|];
          split; [congruence|]; split; [congruence|reflexivity]
        | (* answered *)
          right; right; right; do 5 eexists;
          split; [apply list_elem_of_further, list_elem_of_here|];
          split; [reflexivity|]; split; [reflexivity|];
          split; [do 2 apply list_elem_of_further; apply list_elem_of_here|];
          repeat split; reflexivity ].
  - intros ui Hclick Hui.
    destruct (app_main_shapes db llm ui st)
      as (new & st' & Hrun & _ & _ & [Hidle | [Herr | Hok]]).
    + destruct Hidle as (_ & _ & [H | H]).
      * congruence.
      * rewrite Hui in H. contradiction.
    + destruct Herr as (e & Hpage & _). eauto.
    + destruct Hok as (answer & sql1 & sql & raw & Hpage & _). eauto 10.
Qed.

(** ** Generations and executions per request *)


(** When the execution raises with a message, the run stops there: the
    answer model is not called, and the message is returned behind the
    "SQL Error: " prefix together with the statement. *)
Lemma execution_failure_short_circuits
  (db : SQLDatabase W) (llm : ChatModel W) (question : str) (st : state W)
  (schema : str) (w1 : W) (reply : AIMessage) (w2 : W) (e : Exception) (w3 : W) :
  strip question <> [] ->
  get_table_info db (world st) = (Ok schema, w1) ->
  invoke llm (sql_messages schema question) w1 = (Ok reply, w2) ->
  run db (strip (content reply)) w2 = (Raise e, w3) ->
  exc_message e <> [] ->
  exists st',
    GradioApp.process_query db llm question st
    = (Ok (lit "SQL Error: " ++ exc_message e, strip (content reply), []), st')
    /\ calls st'
       = calls st ++ [ GetTableInfo (Ok schema);
                       Invoke (sql_messages schema question) (Ok reply);
                       Run (strip (content reply)) (Raise e) ]
    /\ answer_generations (calls st') = answer_generations (calls st).
Proof.
  intros Hq Hinfo Hinvoke Hrun Hmsg.
  rewrite gradio_process_query_run by exact Hq.
  rewrite Hinfo. cbv zeta. rewrite Hinvoke, Hrun.
  destruct (exc_message e) as [|m ms] eqn:E; [elim Hmsg; reflexivity|].
  cbn [truthy str_].
  eexists. split; [reflexivity|].
  assert (Hcalls : forall l k, answer_generations (l ++ k)
                   = (answer_generations l + answer_generations k)%nat).
  { intros l k. unfold answer_generations.
    rewrite invocations_app, List.filter_app, List.length_app. reflexivity. }
  settle_log. split; [reflexivity|].
  rewrite Hcalls. count_log.
Qed.

End Claims.

(** ** The pipeline on concrete collaborators *)

(** C3 (code defect).  A database whose exception has an empty message:
    [run_query] reports (None, ""), the test [if sql_error:] takes the empty
    text for "no error", and the run goes on to the answer model, which is
    asked about the response [None]; the caller gets the model's reply as a
    genuine answer and "None" as the raw result.  [answer_user_query] of
    [app.py] goes the same way and returns the reply instead of raising. *)
Theorem empty_error_message_reaches_answer_model :
  exists st' st'',
    GradioApp.process_query Mock.mute_db Mock.helpful_llm Mock.question Mock.start
    = (Ok (Mock.answer_text, Mock.sql_text, lit "None"), st')
    /\ calls st' !! 2%nat = Some (Run Mock.sql_text (Raise (mkException [])))
    /\ answer_generations (calls st') = 1%nat
    /\ App.answer_user_query Mock.question Mock.helpful_llm (Some Mock.mute_db) Mock.start
       = (Ok (mkAIMessage Mock.answer_text), st'')
    /\ answer_generations (calls st'') = 1%nat.
Proof.
  do 2 eexists.
  split; [vm_compute; reflexivity|].
  split; [vm_compute; reflexivity|].
  split; [vm_compute; reflexivity|].
  split; vm_compute; reflexivity.
Qed.

(** C8 (code defect, the one of C3).  [process_query] does return a triple
    here, but the exception the execution raised is caught without being
    rendered: its message is empty, [if sql_error:] takes that for success,
    and the first component is the reply of the answer model, not
    "SQL Error: " or "Error: " followed by the text of the exception.  The
    log shows the one exception of the run and the answer prompt built on
    the response [None]. *)
Theorem empty_message_exception_is_not_rendered :
  exists answer sql raw st',
    GradioApp.process_query Mock.mute_db Mock.helpful_llm Mock.question Mock.start
    = (Ok (answer, sql, raw), st')
    /\ calls st'
       = [ GetTableInfo (Ok Mock.schema_text);
           Invoke (sql_messages Mock.schema_text Mock.question)
             (Ok (mkAIMessage Mock.sql_reply));
           Run Mock.sql_text (Raise (mkException []));
           GetTableInfo (Ok Mock.schema_text);
           Invoke (answer_messages (lit "        ") Mock.schema_text Mock.question
                     Mock.sql_text VNone)
             (Ok (mkAIMessage Mock.answer_text)) ]
    /\ answer = Mock.answer_text
    /\ answer <> lit "SQL Error: " ++ exc_message (mkException [])
    /\ answer <> lit "Error: " ++ exc_message (mkException [])
    /\ raw = lit "None".
Proof.
  do 4 eexists.
  split; [vm_compute; reflexivity|].
  split; [vm_compute; reflexivity|].
  split; [reflexivity|].
  split; [vm_compute; discriminate|].
  split; [vm_compute; discriminate|].
  reflexivity.
Qed.

(** C1, counterexample.  The model endpoint is down: the question is not
    empty, yet the SQL returned is empty, so the triple has neither of the
    two claimed shapes. *)
Lemma two_shapes_refuted :
  exists answer sql raw st',
    Mock.question <> []
    /\ GradioApp.process_query Mock.one_row_db Mock.down_llm Mock.question Mock.start
       = (Ok (answer, sql, raw), st')
    /\ answer = lit "Error: 503 Service Unavailable"
    /\ ~ ((sql <> [] /\ raw <> []) \/ (sql <> [] /\ raw = [])).
Proof.
  do 4 eexists.
  split; [discriminate|].
  split; [vm_compute; reflexivity|].
  split; [reflexivity|].
  intros [[H _] | [H _]]; apply H; reflexivity.
Qed.

(** C5, counterexample.  The Streamlit page on the empty question, with the
    button pressed: it returns with an empty page, so no prompt-for-input
    message is shown. *)
Lemma blank_question_page_stays_empty :
  exists st',
    App.main (Some Mock.one_row_db) (Some Mock.helpful_llm)
      (App.mkWidgets [] [] true) Mock.start = (Ok tt, st')
    /\ page st' = []
    /\ ~ (exists x, x ∈ page st').
Proof.
  eexists. split; [vm_compute; reflexivity|].
  split; [reflexivity|].
  intros [x Hx]. cbn in Hx. apply elem_of_nil in Hx. exact Hx.
Qed.


(** C7, counterexample.  [get_schema] of [app.py] without a handle returns
    normally: it does not raise, a [ConnectionError] or anything else. *)
Lemma get_schema_without_handle_returns :
  App.get_schema None Mock.start = (Ok (lit "Database not connected"), Mock.start)
  /\ ~ (exists e st', App.get_schema None Mock.start = (Raise e, st')).
Proof.
  split; [reflexivity|].
  intros (e & st' & H). discriminate H.
Qed.

(** ** The theorems at concrete inputs *)

(** C5 at a question made of a space, a tab, a line feed and a no-break
    space. *)
Lemma blank_question_short_circuits_witness :
  strip ([32; 9; 10; 160] : str) = []
  /\ (GradioApp.process_query Mock.one_row_db Mock.helpful_llm [32; 9; 10; 160] Mock.start
      = (Ok (lit "Please enter a question.", [], []), Mock.start)
      /\ forall ui : App.widgets,
           query_input ui = [32; 9; 10; 160] ->
           App.main (Some Mock.one_row_db) (Some Mock.helpful_llm) ui Mock.start
           = (Ok tt, Mock.start)).
Proof.
  split.
  - vm_compute; reflexivity.
  - apply (blank_question_short_circuits
             Mock.one_row_db Mock.helpful_llm [32; 9; 10; 160] Mock.start).
    vm_compute; reflexivity.
Defined.

(** C4 at a reply that carries leading blanks and a trailing line feed. *)
Lemma generate_sql_strips_witness :
  get_table_info Mock.one_row_db (world Mock.start) = (Ok Mock.schema_text, 1%nat)
  /\ invoke Mock.helpful_llm (sql_messages Mock.schema_text Mock.question) 1%nat
     = (Ok (mkAIMessage Mock.sql_reply), 2%nat)
  /\ (let st2 :=
        log (Invoke (sql_messages Mock.schema_text Mock.question)
               (Ok (mkAIMessage Mock.sql_reply)))
          (log (GetTableInfo (Ok Mock.schema_text)) Mock.start 1%nat) 2%nat in
      GradioApp.generate_sql Mock.one_row_db Mock.helpful_llm
        {["question" := VStr Mock.question]} Mock.start
      = (Ok (strip (content (mkAIMessage Mock.sql_reply))), st2)
      /\ App.generate_sql Mock.helpful_llm (Some Mock.one_row_db)
           {["question" := VStr Mock.question]} Mock.start
         = (Ok (strip (content (mkAIMessage Mock.sql_reply))), st2)
      /\ (exists ws1 ws2,
            content (mkAIMessage Mock.sql_reply)
            = ws1 ++ strip (content (mkAIMessage Mock.sql_reply)) ++ ws2
            /\ forallb isspace ws1 = true
            /\ forallb isspace ws2 = true)
      /\ trimmed (strip (content (mkAIMessage Mock.sql_reply))) = true
      /\ (exists new,
            calls (snd (GradioApp.process_query Mock.one_row_db Mock.helpful_llm
                          Mock.question Mock.start))
            = calls Mock.start ++ new
            /\ Forall (fun q => trimmed q = true) (executed new))
      /\ (forall ui,
            exists new,
              calls (snd (App.main (Some Mock.one_row_db) (Some Mock.helpful_llm)
                            ui Mock.start))
              = calls Mock.start ++ new
              /\ Forall (fun q => trimmed q = true) (executed new))).
Proof.
  split; [reflexivity|].
  split; [reflexivity|].
  apply (generate_sql_strips Mock.one_row_db Mock.helpful_llm Mock.question
           Mock.start Mock.schema_text 1%nat (mkAIMessage Mock.sql_reply) 2%nat);
    reflexivity.
Defined.

(** C1 at the sample question. *)
Lemma answer_shapes_witness :
  strip Mock.question <> []
  /\ ((exists answer sql raw new st',
         GradioApp.process_query Mock.one_row_db Mock.helpful_llm Mock.question Mock.start
         = (Ok (answer, sql, raw), st')
         /\ calls st' = calls Mock.start ++ new
         /\ ((exists q e, Run q (Raise e) ∈ new /\ exc_message e = [])
             \/ (exists e,
                   (last new = Some (GetTableInfo (Raise e))
                    \/ exists p, last new = Some (Invoke p (Raise e)))
                   /\ answer = lit "Error: " ++ exc_message e
                   /\ sql = [] /\ raw = [])
             \/ (exists schema reply e,
                   Invoke (sql_messages schema Mock.question) (Ok reply) ∈ new
                   /\ sql = strip (content reply)
                   /\ last new = Some (Run sql (Raise e))
                   /\ exc_message e <> []
                   /\ answer = lit "SQL Error: " ++ exc_message e
                   /\ raw = [])
             \/ (exists schema reply rows tell final,
                   Invoke (sql_messages schema Mock.question) (Ok reply) ∈ new
                   /\ sql = strip (content reply)
                   /\ executed new = [sql]
                   /\ Run sql (Ok rows) ∈ new
                   /\ raw = rows
                   /\ last new = Some (Invoke tell (Ok final))
                   /\ asks_for_answer tell = true
                   /\ answer = content final)))
      /\ (forall ui,
            App.execute_clicked ui = true ->
            query_input ui = Mock.question ->
            exists st',
              App.main (Some Mock.one_row_db) (Some Mock.helpful_llm) ui Mock.start
              = (Ok tt, st')
              /\ ((exists e,
                     page st'
                     = page Mock.start ++ [StError (lit "Error: " ++ exc_message e)])
                  \/ (exists answer sql raw,
                        page st' = page Mock.start ++ success_page answer sql raw)))).
Proof.
  assert (H : strip Mock.question <> []) by (vm_compute; discriminate).
  split.
  - exact H.
  - exact (answer_shapes Mock.one_row_db Mock.helpful_llm Mock.question Mock.start H).
Defined.

(** ** Two scenarios of the specification, evaluated *)

(** The database rejects the statement: the error comes back as the visible
    answer, with the statement and no raw result, and the answer model is
    not asked. *)
Example rejected_statement_is_reported :
  exists st',
    GradioApp.process_query Mock.rejecting_db Mock.helpful_llm Mock.question Mock.start
    = (Ok (lit "SQL Error: no such table: Invoice2", Mock.sql_text, []), st')
    /\ answer_generations (calls st') = 0%nat
    /\ world st' = 3%nat.
Proof.
  eexists. split; [vm_compute; reflexivity|].
  split; vm_compute; reflexivity.
Qed.

(** A model that always says "  SELECT 1;" and a line feed: the statement
    executed is "SELECT 1;", and the answer prompt carries the rows the
    database returned. *)
Example constant_model_run :
  exists st',
    GradioApp.process_query Mock.one_row_db Mock.select1_llm Mock.question Mock.start
    = (Ok (lit "  SELECT 1;" ++ nl, lit "SELECT 1;", lit "[(1,)]"), st')
    /\ executed (calls st') = [lit "SELECT 1;"]
    /\ invocations (calls st')
       = [ sql_messages Mock.schema_text Mock.question;
           answer_messages (lit "        ") Mock.schema_text Mock.question
             (lit "SELECT 1;") (VStr (lit "[(1,)]")) ].
Proof.
  eexists. split; [vm_compute; reflexivity|].
  split; vm_compute; reflexivity.
Qed.

(** * Further properties of the two files *)

(** ** The keyword arguments of [generate_sql] *)

Section Extras.
Context {W : Type}.

(** The SQL prompt reads two entries of the keyword arguments and nothing
    else. *)
Lemma format_sql_prompt_lookup (kw : gmap string value) :
  format_messages GradioApp.prompt kw =
  match kw !! "schema", kw !! "question" with
  | Some schema, Some question =>
      Ok [ (system, GradioApp.sql_instruction);
           (human,
            lit "Based on the table schema below, write a SQL query that would answer the user's question:"
            ++ nl ++ lit "    " ++ str_ schema
            ++ nl ++ nl ++ lit "    Question: " ++ str_ question
            ++ nl ++ lit "    SQL Query:") ]
  | None, _ => Raise (mkException (lit "'" ++ lit "schema" ++ lit "'"))
  | Some _, None => Raise (mkException (lit "'" ++ lit "question" ++ lit "'"))
  end.
Proof.
  unfold GradioApp.prompt, GradioApp.sql_template.
  cbn [format_messages format].
  destruct (kw !! "schema") as [schema|]; [|reflexivity].
  destruct (kw !! "question") as [question|]; [|reflexivity].
  rewrite <- !app_assoc, !app_nil_r. reflexivity.
Qed.

(** X1.  [generate_sql] reads the question out of its keyword arguments and
    nothing else: a "schema" entry passed in is overwritten by the schema
    just read, and any other entry is ignored.  A dictionary with the same
    "question" gives the same run as the one-entry dictionary, in both
    files.  The dictionary is spread as keyword arguments of the bound
    method [format_messages], which a key "self" would make fail, so such
    a key is excluded. *)
Theorem generate_sql_reads_only_question
  (db : SQLDatabase W) (llm : ChatModel W) (handle : option (SQLDatabase W))
  (inputs : gmap string value) (question : value) (st : state W) :
  inputs !! "self" = None ->
  inputs !! "question" = Some question ->
  GradioApp.generate_sql db llm inputs st
  = GradioApp.generate_sql db llm {["question" := question]} st
  /\ App.generate_sql llm handle inputs st
     = App.generate_sql llm handle {["question" := question]} st.
Proof.
  intros _ Hq.
  assert (Hfmt : forall schema : str,
             format_messages GradioApp.prompt (<["schema" := VStr schema]> inputs)
             = format_messages GradioApp.prompt
                 (<["schema" := VStr schema]> {["question" := question]})).
  { intros schema. rewrite !format_sql_prompt_lookup.
    rewrite !lookup_insert_eq.
    rewrite !lookup_insert_ne by discriminate.
    rewrite Hq, lookup_singleton_eq. reflexivity. }
  split.
  - unfold GradioApp.generate_sql, bind.
    destruct (GradioApp.get_schema db st) as [[schema|e] st1]; [|reflexivity].
    rewrite Hfmt. reflexivity.
  - unfold App.generate_sql, bind.
    destruct (App.get_schema handle st) as [[schema|e] st1]; [|reflexivity].
    change App.prompt with GradioApp.prompt.
    rewrite Hfmt. reflexivity.
Qed.

(** X2.  Called without a "question" entry, [generate_sql] raises: the
    schema has been read by then, the model is not called, and a schema read
    that raised is the exception that comes out. *)
Theorem generate_sql_without_question
  (db : SQLDatabase W) (llm : ChatModel W)
  (inputs : gmap string value) (st : state W) :
  inputs !! "question" = None ->
  exists e r st',
    GradioApp.generate_sql db llm inputs st = (Raise e, st')
    /\ App.generate_sql llm (Some db) inputs st = (Raise e, st')
    /\ calls st' = calls st ++ [GetTableInfo r]
    /\ (forall e', r = Raise e' -> e = e').
Proof.
  intros Hq.
  assert (Happ : App.generate_sql llm (Some db) inputs st
                 = GradioApp.generate_sql db llm inputs st) by reflexivity.
  rewrite Happ.
  unfold GradioApp.generate_sql, bind. rewrite gradio_get_schema_run.
  destruct (get_table_info db (world st)) as [[schema|e] w1]; cbn [fst snd].
  - unfold lift. rewrite format_sql_prompt_lookup.
    rewrite lookup_insert_eq, lookup_insert_ne by discriminate.
    rewrite Hq. do 3 eexists. repeat split. intros e' H; discriminate H.
  - do 3 eexists. repeat split. intros e' H; injection H as ->; reflexivity.
Qed.

End Extras.

(** ** What the prompts are made of *)

Ltac grounded_here :=
  do 2 eexists; split; [reflexivity|]; split; [reflexivity|];
  first [ left; reflexivity | right; do 2 eexists; split; reflexivity ].

Ltac check_grounded_from H i :=
  lazymatch type of H with
  | [] !! _ = Some _ => first [discriminate H | destruct i; discriminate H]
  | None = Some _ => discriminate H
  | (_ :: _) !! _ = Some _ =>
      destruct i as [|i];
      [ cbn [lookup list_lookup] in H; first [discriminate H | simplify_eq; grounded_here]
      | cbn [lookup list_lookup] in H; check_grounded_from H i ]
  end.

Ltac check_grounded :=
  let i := fresh "i" in
  let H := fresh "H" in
  intros i ? ? H; check_grounded_from H i.

Section Grounding.
Context {W : Type}.

(** X3.  In every run of [process_query], each prompt sent to the model was
    formatted from the schema the database returned in the call just before
    it and from the question as typed (not stripped); the answer prompt also
    carries the statement that was executed and what the execution gave. *)
Theorem process_query_prompts_grounded
  (db : SQLDatabase W) (llm : ChatModel W) (question : str) (st : state W) :
  exists new,
    calls (snd (GradioApp.process_query db llm question st)) = calls st ++ new
    /\ grounded (lit "        ") question new.
Proof.
  destruct (strip question) as [|c t] eqn:Hq.
  - exists []. unfold GradioApp.process_query. rewrite Hq. cbn.
    rewrite app_nil_r. split; [reflexivity|]. intros i p r H. discriminate H.
  - rewrite gradio_process_query_run by (rewrite Hq; discriminate).
    run_cases; cbn [snd];
      (eexists; split; [settle_log; reflexivity|]);
      check_grounded.
Qed.

(** X4.  The same holds for every run of the Streamlit page, with the
    answer prompt indented by four blanks. *)
Theorem page_prompts_grounded
  (db : SQLDatabase W) (llm : ChatModel W) (ui : App.widgets) (st : state W) :
  exists new,
    calls (snd (App.main (Some db) (Some llm) ui st)) = calls st ++ new
    /\ grounded (lit "    ") (query_input ui) new.
Proof.
  destruct (App.execute_clicked ui) eqn:Hclick.
  2:{ exists []. rewrite app_main_idle by (left; exact Hclick).
      cbn [snd]. rewrite app_nil_r. split; [reflexivity|].
      intros i p r H. discriminate H. }
  destruct (strip (query_input ui)) as [|c t] eqn:Hq.
  { exists []. rewrite app_main_idle by (right; exact Hq).
    cbn [snd]. rewrite app_nil_r. split; [reflexivity|].
    intros i p r H. discriminate H. }
  rewrite app_main_run, app_answer_user_query_run
    by first [exact Hclick | rewrite Hq; discriminate].
  run_cases; rewrite ?gradio_generate_sql_run; run_cases; cbn [snd];
    (eexists; split; [settle_log; reflexivity|]);
    check_grounded.
Qed.

End Grounding.

(** ** More on [app.py] *)

Section PageFacts.
Context {W : Type}.

(** X5.  [answer_user_query] of [app.py] on an absent database handle still
    asks the model for SQL, with "Database not connected" in the place of the
    schema; when the model replies, the run ends with the exception
    "SQL Error: Database not connected", and when the model raises, with the
    model's exception.  It never returns an answer and never executes
    anything. *)
Theorem answer_user_query_without_handle
  (llm : ChatModel W) (query : str) (st : state W) :
  let ask := sql_messages (lit "Database not connected") query in
  App.answer_user_query query llm None st =
  match invoke llm ask (world st) with
  | (Ok reply, w) =>
      (Raise (mkException (lit "SQL Error: Database not connected")),
       log (Invoke ask (Ok reply)) st w)
  | (Raise e, w) => (Raise e, log (Invoke ask (Raise e)) st w)
  end.
Proof.
  intros ask.
  unfold App.answer_user_query, App.write_sql_query, App.generate_sql.
  cbv zeta. unfold bind at 1. unfold bind at 1.
  cbn [App.get_schema]. unfold ret at 1. unfold bind at 1, lift.
  change App.prompt with GradioApp.prompt.
  rewrite format_sql_prompt. fold ask.
  unfold bind at 1, call_invoke.
  destruct (invoke llm ask (world st)) as [[reply|e] w]; [|reflexivity].
  unfold ret at 1. unfold bind at 1. cbn [App.run_query]. unfold ret at 1.
  cbn [truthy lit map list_ascii_of_string]. reflexivity.
Qed.

(** X6.  On the Streamlit page, an execution that raises with a message is
    shown as "Error: SQL Error: " followed by the message: the page gains
    that one error, the history is unchanged, and the run made three calls,
    the answer model not among them. *)
Theorem page_reports_execution_error
  (db : SQLDatabase W) (llm : ChatModel W) (ui : App.widgets) (st : state W)
  (schema : str) (w1 : W) (reply : AIMessage) (w2 : W) (e : Exception) (w3 : W) :
  App.execute_clicked ui = true ->
  strip (query_input ui) <> [] ->
  get_table_info db (world st) = (Ok schema, w1) ->
  invoke llm (sql_messages schema (query_input ui)) w1 = (Ok reply, w2) ->
  run db (strip (content reply)) w2 = (Raise e, w3) ->
  exc_message e <> [] ->
  exists st',
    App.main (Some db) (Some llm) ui st = (Ok tt, st')
    /\ page st' = page st ++ [StError (lit "Error: SQL Error: " ++ exc_message e)]
    /\ query_history st' = query_history st
    /\ calls st'
       = calls st ++ [ GetTableInfo (Ok schema);
                       Invoke (sql_messages schema (query_input ui)) (Ok reply);
                       Run (strip (content reply)) (Raise e) ]
    /\ world st' = w3.
Proof.
  intros Hclick Hq Hinfo Hinvoke Hrun Hmsg.
  rewrite app_main_run, app_answer_user_query_run by assumption.
  rewrite Hinfo. cbv zeta. rewrite Hinvoke, Hrun.
  destruct (exc_message e) as [|m ms] eqn:E; [elim Hmsg; reflexivity|].
  cbn [truthy str_].
  eexists. split; [reflexivity|].
  settle_log. cbn [exc_message]. repeat split.
Qed.

(** X7.  One run of the Streamlit page leaves the history as it was unless
    the request succeeded, and then appends exactly the pair of the question
    and the answer shown; earlier entries stay in place. *)
Theorem page_history_records_successes
  (db : SQLDatabase W) (llm : ChatModel W) (ui : App.widgets) (st : state W) :
  exists st',
    App.main (Some db) (Some llm) ui st = (Ok tt, st')
    /\ (st' = st
        \/ (exists e,
              page st' = page st ++ [StError (lit "Error: " ++ exc_message e)]
              /\ query_history st' = query_history st)
        \/ (exists answer sql raw,
              page st' = page st ++ success_page answer sql raw
              /\ query_history st' = query_history st ++ [(query_input ui, answer)])).
Proof.
  destruct (app_main_shapes db llm ui st)
    as (new & st' & Hrun & _ & _ & [Hidle | [Herr | Hok]]).
  - exists st'. split; [exact Hrun|]. left. tauto.
  - destruct Herr as (e & Hpage & Hhist & _).
    exists st'. split; [exact Hrun|]. right; left. eauto.
  - destruct Hok as (answer & sql1 & sql & raw & Hpage & Hhist & _).
    exists st'. split; [exact Hrun|]. right; right. eauto 10.
Qed.

(** X8.  A successful request on the Streamlit page is made of eight calls.
    The answer shown is the model's reply to a prompt built on the first
    generated statement and its execution; the SQL and raw result shown come
    from a second generation and a second execution, whose failure shows as
    "No results returned" under the success message. *)
Theorem page_success_anatomy
  (db : SQLDatabase W) (llm : ChatModel W) (ui : App.widgets) (st : state W) :
  exists new st',
    App.main (Some db) (Some llm) ui st = (Ok tt, st')
    /\ calls st' = calls st ++ new
    /\ (st' = st
        \/ (exists e,
              page st' = page st ++ [StError (lit "Error: " ++ exc_message e)])
        \/ (exists schema1 reply1 res1 raw1 schema2 answer schema3 reply2 res2 raw2,
              let question := query_input ui in
              let sql1 := strip (content reply1) in
              let sql2 := strip (content reply2) in
              new = [ GetTableInfo (Ok schema1);
                      Invoke (sql_messages schema1 question) (Ok reply1);
                      Run sql1 res1;
                      GetTableInfo (Ok schema2);
                      Invoke (answer_messages (lit "    ") schema2 question sql1 raw1)
                        (Ok answer);
                      GetTableInfo (Ok schema3);
                      Invoke (sql_messages schema3 question) (Ok reply2);
                      Run sql2 res2 ]
              /\ raw1 = raw_of res1
              /\ raw2 = raw_of res2
              /\ page st' = page st ++ success_page (content answer) sql2 raw2)).
Proof.
  destruct (App.execute_clicked ui) eqn:Hclick.
  2:{ exists [], st. rewrite app_main_idle by (left; exact Hclick).
      rewrite app_nil_r. repeat split. left. reflexivity. }
  destruct (strip (query_input ui)) as [|c t] eqn:Hq.
  { exists [], st. rewrite app_main_idle by (right; exact Hq).
    rewrite app_nil_r. repeat split. left. reflexivity. }
  rewrite app_main_run, app_answer_user_query_run
    by first [exact Hclick | rewrite Hq; discriminate].
  run_cases; rewrite ?gradio_generate_sql_run; run_cases;
    (do 2 eexists; split; [reflexivity|]; split; [settle_log; reflexivity|]);
    first
      [ right; left; eexists; reflexivity
      | right; right; do 10 eexists; cbv zeta;
        split; [reflexivity|]; split; [reflexivity|]; split; reflexivity ].
Qed.

End PageFacts.

(** ** Decimal rendering *)

Lemma lit_injective (s t : string) : lit s = lit t -> s = t.
Proof.
  unfold lit. intros H.
  assert (Hl : list_ascii_of_string s = list_ascii_of_string t).
  { revert H. generalize (list_ascii_of_string s) (list_ascii_of_string t).
    induction l as [|a l IH]; intros [|b k] H; try discriminate H; [reflexivity|].
    cbn [map] in H. injection H as Hab Hlk.
    f_equal; [|apply IH; exact Hlk].
    rewrite <- (ascii_N_embedding a), <- (ascii_N_embedding b), Hab. reflexivity. }
  rewrite <- (string_of_list_ascii_of_string s),
          <- (string_of_list_ascii_of_string t), Hl.
  reflexivity.
Qed.

Lemma to_int_proper (z : Z) :
  Z.to_int z <> Decimal.Pos Decimal.Nil /\ Z.to_int z <> Decimal.Neg Decimal.Nil.
Proof.
  destruct z as [|p|p]; cbn; split; try discriminate;
    intros [= H]; exact (DecimalPos.Unsigned.to_uint_nonnil p H).
Qed.

Lemma decimal_injective (a b : Z) :
  AppPage.decimal a = AppPage.decimal b -> a = b.
Proof.
  unfold AppPage.decimal. intros H. apply lit_injective in H.
  apply (f_equal NilZero.int_of_string) in H.
  destruct (to_int_proper a) as [Ha1 Ha2], (to_int_proper b) as [Hb1 Hb2].
  rewrite !NilZero.isi in H by assumption.
  injection H as H.
  rewrite <- (DecimalZ.of_to a), <- (DecimalZ.of_to b), H. reflexivity.
Qed.

(** ** The history buttons *)

Lemma last_five_length {A} (l : list A) :
  List.length (AppPage.last_five l) = Nat.min 5 (List.length l).
Proof. unfold AppPage.last_five. rewrite length_drop. lia. Qed.

Lemma history_buttons_length (history : list (str * str)) :
  List.length (AppPage.history_buttons history) = Nat.min 5 (List.length history).
Proof.
  unfold AppPage.history_buttons.
  destruct history as [|entry history]; [reflexivity|].
  rewrite length_imap, length_rev. apply last_five_length.
Qed.

(** X9.  The sidebar shows at most five history buttons, newest first: the
    button at position [i] is labelled "Query n" with n the number of the
    request it stands for, counted from 1 in the order asked, its key is
    "history_i", and it carries that request's question. *)
Theorem history_button_meaning
  (history : list (str * str)) (i : nat) (b : AppPage.history_button) :
  AppPage.history_buttons history !! i = Some b ->
  (i < 5)%nat
  /\ (i < List.length history)%nat
  /\ (exists answer,
        history !! (List.length history - 1 - i)%nat
        = Some (AppPage.button_query b, answer))
  /\ AppPage.button_label b
     = lit "Query " ++ AppPage.decimal (Z.of_nat (List.length history - i))
  /\ AppPage.button_key b = lit "history_" ++ AppPage.decimal (Z.of_nat i).
Proof.
  intros H.
  assert (Hi : (i < Nat.min 5 (List.length history))%nat).
  { rewrite <- history_buttons_length. eapply lookup_lt_Some. exact H. }
  unfold AppPage.history_buttons in H.
  destruct history as [|entry0 rest] eqn:Hh; [discriminate H|].
  rewrite <- Hh in *. clear Hh entry0 rest.
  rewrite list_lookup_imap in H.
  destruct (rev (AppPage.last_five history) !! i) as [[q answer]|] eqn:E;
    [|discriminate H].
  cbn in H. injection H as <-. cbn [AppPage.button_query AppPage.button_label AppPage.button_key fst].
  rewrite rev_alt in E. fold (reverse (AppPage.last_five history)) in E.
  rewrite reverse_lookup in E by (rewrite last_five_length; exact Hi).
  unfold AppPage.last_five in E.
  rewrite lookup_drop, length_drop in E.
  replace (List.length history - 5
           + (List.length history - (List.length history - 5) - S i))%nat
    with (List.length history - 1 - i)%nat in E by lia.
  split; [lia|]. split; [lia|]. split; [eauto|]. split; [|reflexivity].
  rewrite Nat2Z.inj_sub by lia. reflexivity.
Qed.

(** X10.  The history buttons of one page have pairwise distinct widget
    keys and pairwise distinct labels. *)
Theorem history_buttons_distinct (history : list (str * str)) :
  NoDup (AppPage.button_key <$> AppPage.history_buttons history)
  /\ NoDup (AppPage.button_label <$> AppPage.history_buttons history).
Proof.
  split; apply NoDup_alt; intros i j x Hi Hj;
    rewrite list_lookup_fmap in Hi, Hj;
    destruct (AppPage.history_buttons history !! i) as [bi|] eqn:Ei; [|discriminate Hi| |discriminate Hi];
    destruct (AppPage.history_buttons history !! j) as [bj|] eqn:Ej; try discriminate Hj;
    cbn in Hi, Hj;
    destruct (history_button_meaning _ _ _ Ei) as (_ & Hli & _ & Hlab_i & Hkey_i);
    destruct (history_button_meaning _ _ _ Ej) as (_ & Hlj & _ & Hlab_j & Hkey_j).
  - assert (Heq : AppPage.button_key bi = AppPage.button_key bj) by congruence.
    rewrite Hkey_i, Hkey_j in Heq. apply app_inv_head in Heq.
    apply decimal_injective in Heq. lia.
  - assert (Heq : AppPage.button_label bi = AppPage.button_label bj) by congruence.
    rewrite Hlab_i, Hlab_j in Heq. apply app_inv_head in Heq.
    apply decimal_injective in Heq. lia.
Qed.

Lemma select_query_unfired (fired : str -> bool) (l : list AppPage.history_button)
  (selected : option str) :
  Forall (fun b => fired (AppPage.button_key b) = false) l ->
  foldl (fun selected b =>
           if fired (AppPage.button_key b) then Some (AppPage.button_query b)
           else selected) selected l
  = selected.
Proof.
  intros H. revert selected.
  induction H as [|b l Hb _ IH]; intros selected; cbn [foldl]; [reflexivity|].
  rewrite Hb. apply IH.
Qed.

(** X11.  When exactly one history button fires, [selected_query] becomes
    the question of the request that button is labelled with. *)
Theorem history_click_selects
  (history : list (str * str)) (fired : str -> bool)
  (i : nat) (b : AppPage.history_button) :
  AppPage.history_buttons history !! i = Some b ->
  (forall k, fired k = true <-> k = AppPage.button_key b) ->
  AppPage.select_query fired (AppPage.history_buttons history)
  = Some (AppPage.button_query b)
  /\ exists answer,
       history !! (List.length history - 1 - i)%nat
       = Some (AppPage.button_query b, answer).
Proof.
  intros Hb Hfired.
  split; [|exact (proj1 (proj2 (proj2 (history_button_meaning _ _ _ Hb))))].
  unfold AppPage.select_query.
  rewrite <- (take_drop_middle _ _ _ Hb).
  rewrite foldl_app. cbn [foldl].
  assert (Hf : fired (AppPage.button_key b) = true) by (apply Hfired; reflexivity).
  rewrite Hf.
  apply select_query_unfired.
  apply Forall_lookup. intros j c Hc.
  rewrite lookup_drop in Hc.
  destruct (fired (AppPage.button_key c)) eqn:E; [|reflexivity].
  apply Hfired in E.
  destruct (history_buttons_distinct history) as [Hkeys _].
  rewrite NoDup_alt in Hkeys.
  assert (S i + j = i)%nat; [|lia].
  apply (Hkeys _ _ (AppPage.button_key b)).
  - rewrite list_lookup_fmap, Hc. cbn. congruence.
  - rewrite list_lookup_fmap, Hb. reflexivity.
Qed.

(** ** The sidebar and start-up *)

Section Side.
Context {W : Type}.

(** X12.  The sidebar never calls the model and never executes a statement.
    It reads the schema once when "Show Schema" fired, and not otherwise; a
    schema read that raises is not caught there and leaves the history
    alone.  When the sidebar returns, it asks for a rerun exactly when
    "Clear History" fired, and the history is then empty, else unchanged. *)
Theorem sidebar_effects
  (db : SQLDatabase W) (side : AppPage.sidebar_widgets) (st : state W) :
  exists r new st',
    AppPage.sidebar (Some db) side st = (r, st')
    /\ calls st' = calls st ++ new
    /\ invocations new = []
    /\ executed new = []
    /\ (if AppPage.show_schema_clicked side then
          exists res,
            new = [GetTableInfo res]
            /\ match res with
               | Ok schema =>
                   page st'
                   = page st ++ [StExpander (lit "Database Tables"); StText schema]
               | Raise e =>
                   r = Raise e
                   /\ page st' = page st ++ [StExpander (lit "Database Tables")]
                   /\ query_history st' = query_history st
               end
        else new = [] /\ page st' = page st)
    /\ (forall s, r = Ok s ->
          AppPage.rerun s = AppPage.clear_clicked side
          /\ AppPage.selected_query s
             = AppPage.select_query (AppPage.history_clicked side)
                 (AppPage.history_buttons (query_history st))
          /\ query_history st'
             = if AppPage.clear_clicked side then [] else query_history st).
Proof.
  unfold AppPage.sidebar.
  destruct (AppPage.show_schema_clicked side) eqn:Hshow.
  - unfold bind at 1. unfold bind at 1. unfold show at 1.
    unfold bind at 1. rewrite app_get_schema_some, gradio_get_schema_run.
    cbn [world calls page query_history].
    destruct (get_table_info db (world st)) as [[schema|e] w] eqn:Hinfo;
      cbn [fst snd].
    + unfold show at 1. unfold bind at 1, AppPage.get_history.
      cbn [world calls page query_history log].
      destruct (AppPage.clear_clicked side) eqn:Hclear;
        unfold bind, AppPage.set_history, ret;
        cbn [world calls page query_history];
        (do 3 eexists; split; [reflexivity|]);
        cbn [calls page query_history];
        (split; [reflexivity|]); repeat split;
        first [ eexists; split; [reflexivity|]; rewrite <- app_assoc; reflexivity
              | simplify_eq; reflexivity ].
    + do 3 eexists. split; [reflexivity|].
      cbn [calls page query_history log].
      split; [reflexivity|]. repeat split;
        first [ eexists; split; [reflexivity|]; repeat split
              | discriminate ].
  - unfold bind at 1. unfold ret at 1. unfold bind at 1, AppPage.get_history.
    destruct (AppPage.clear_clicked side) eqn:Hclear;
      unfold bind, AppPage.set_history, ret;
      cbn [world calls page query_history];
      (exists (Ok (AppPage.mkSidebarResult
                     (AppPage.select_query (AppPage.history_clicked side)
                        (AppPage.history_buttons (query_history st)))
                     (AppPage.clear_clicked side))), []);
      rewrite Hclear;
      (eexists; split; [reflexivity|]);
      cbn [calls page query_history];
      rewrite app_nil_r; repeat split; simplify_eq; reflexivity.
Qed.

(** X13.  Start-up of the page script, the resource cache put aside: both
    constructors are tried, the model's also when the database's has failed; each failure is shown with
    its own prefix; when either failed the script adds the initialisation
    error and stops without any call through a handle and without touching
    the history; when both succeeded the script goes on to the sidebar and,
    unless that asked for a rerun, to the main content. *)
Theorem script_start_up
  (from_uri : W -> outcome (SQLDatabase W) * W)
  (new_llm : W -> outcome (ChatModel W) * W)
  (side : AppPage.sidebar_widgets) (ui : App.widgets) (st : state W) :
  let (rdb, w1) := from_uri (world st) in
  let (rllm, w2) := new_llm w1 in
  let errors :=
    shown_error (lit "Error connecting to database: ") rdb
    ++ shown_error (lit "Error initializing LLM: ") rllm in
  let st2 := mkState w2 (calls st) (page st ++ errors) (query_history st) in
  AppPage.script from_uri new_llm side ui st =
  match rdb, rllm with
  | Ok db, Ok llm =>
      (let! s := AppPage.sidebar (Some db) side in
       if AppPage.rerun s then ret tt else App.main (Some db) (Some llm) ui) st2
  | _, _ =>
      (Ok tt,
       mkState w2 (calls st)
         (page st ++ errors
          ++ [StError (lit "Failed to initialize application. Please check your configuration.")])
         (query_history st))
  end.
Proof.
  destruct (from_uri (world st)) as [rdb w1] eqn:Hdb.
  destruct (new_llm w1) as [rllm w2] eqn:Hllm.
  cbv zeta.
  unfold AppPage.script, AppPage.init_database, AppPage.get_llm.
  unfold bind at 1. unfold try_except at 1. unfold bind at 1.
  unfold AppPage.construct at 1. rewrite Hdb.
  destruct rdb as [db|e].
  - unfold ret at 1. unfold bind at 1. unfold try_except at 1. unfold bind at 1.
    unfold AppPage.construct at 1. cbn [world calls page query_history].
    rewrite Hllm.
    destruct rllm as [llm|e'].
    + unfold ret at 1. cbn [shown_error]. rewrite !app_nil_r. reflexivity.
    + unfold bind at 1. unfold show at 1. unfold ret at 1. unfold show.
      cbn [world calls page query_history shown_error].
      rewrite app_nil_l, <- app_assoc. reflexivity.
  - unfold bind at 1. unfold show at 1. unfold ret at 1.
    unfold bind at 1. unfold try_except at 1. unfold bind at 1.
    unfold AppPage.construct at 1. cbn [world calls page query_history].
    rewrite Hllm.
    destruct rllm as [llm|e'].
    + unfold ret at 1. unfold show.
      cbn [world calls page query_history shown_error].
      rewrite app_nil_r, <- app_assoc. reflexivity.
    + unfold bind at 1. unfold show at 1. unfold ret at 1. unfold show.
      cbn [world calls page query_history shown_error].
      rewrite <- !app_assoc. reflexivity.
Qed.

End Side.

(** ** The blank test, and the two front ends side by side *)

Lemma lstrip_nil_iff (s : str) : lstrip s = [] <-> forallb isspace s = true.
Proof.
  induction s as [|c s IH]; cbn [lstrip forallb]; [tauto|].
  destruct (isspace c); cbn [andb]; [exact IH|].
  split; discriminate.
Qed.

Lemma strip_nil_iff (s : str) : strip s = [] <-> forallb isspace s = true.
Proof.
  rewrite <- lstrip_nil_iff. unfold strip. split.
  - intros H.
    destruct (rstrip_prefix (lstrip s)) as [ws [Hs Hws]].
    rewrite H in Hs. cbn [app] in Hs.
    destruct (lstrip s) as [|c t] eqn:E; [reflexivity|].
    pose proof (lstrip_head _ _ _ E) as Hc.
    rewrite <- Hs in Hws. cbn [forallb] in Hws. rewrite Hc in Hws. discriminate Hws.
  - intros ->. reflexivity.
Qed.

Section More.
Context {W : Type}.

(** X14.  The blank test of both front ends rejects exactly the questions
    made of white space only: on such a question nothing is called, and on
    any other question the run starts with a schema read. *)
Theorem blank_test_is_whitespace_only
  (db : SQLDatabase W) (llm : ChatModel W) (question : str) (st : state W) :
  if forallb isspace question then
    GradioApp.process_query db llm question st
    = (Ok (lit "Please enter a question.", [], []), st)
    /\ (forall ui, query_input ui = question ->
          App.main (Some db) (Some llm) ui st = (Ok tt, st))
  else
    (exists r res rest st',
       GradioApp.process_query db llm question st = (r, st')
       /\ calls st' = calls st ++ GetTableInfo res :: rest)
    /\ (forall ui, query_input ui = question -> App.execute_clicked ui = true ->
          exists res rest st',
            App.main (Some db) (Some llm) ui st = (Ok tt, st')
            /\ calls st' = calls st ++ GetTableInfo res :: rest).
Proof.
  destruct (forallb isspace question) eqn:Hws.
  - apply strip_nil_iff in Hws.
    split.
    + unfold GradioApp.process_query. rewrite Hws. reflexivity.
    + intros ui Hui. apply app_main_idle. right. rewrite Hui. exact Hws.
  - assert (Hq : strip question <> []).
    { intros H. apply strip_nil_iff in H. congruence. }
    split.
    + rewrite gradio_process_query_run by exact Hq.
      run_cases; (do 4 eexists; split; [reflexivity|]; settle_log; reflexivity).
    + intros ui Hui Hclick.
      rewrite app_main_run, app_answer_user_query_run
        by first [exact Hclick | rewrite Hui; exact Hq].
      run_cases; rewrite ?gradio_generate_sql_run; run_cases;
        (do 3 eexists; split; [reflexivity|]; settle_log; reflexivity).
Qed.

(** X15.  On the same question and from the same state, [process_query] and
    [answer_user_query] make the same first four calls with the same
    outcomes and the same number of calls in all; their answer prompts
    differ in the indentation of the template only. *)
Theorem front_ends_share_the_pipeline
  (db : SQLDatabase W) (llm : ChatModel W) (question : str) (st : state W) :
  strip question <> [] ->
  exists gradio app,
    calls (snd (GradioApp.process_query db llm question st)) = calls st ++ gradio
    /\ calls (snd (App.answer_user_query question llm (Some db) st)) = calls st ++ app
    /\ take 4 gradio = take 4 app
    /\ List.length gradio = List.length app
    /\ (forall tell r,
          gradio !! 4%nat = Some (Invoke tell r) ->
          exists schema sql raw r',
            tell = answer_messages (lit "        ") schema question sql raw
            /\ app !! 4%nat
               = Some (Invoke (answer_messages (lit "    ") schema question sql raw) r')).
Proof.
  intros Hq.
  rewrite gradio_process_query_run, app_answer_user_query_run by exact Hq.
  run_cases; cbn [snd];
    (do 2 eexists; split; [settle_log; reflexivity|];
     split; [settle_log; reflexivity|]);
    (split; [reflexivity|]); (split; [reflexivity|]);
    intros tell r H; cbn [lookup list_lookup] in H;
    first [ discriminate H
          | simplify_eq; do 4 eexists; split; reflexivity ].
Qed.

End More.

(** ** The further properties at concrete inputs *)

(** X1 at keyword arguments that carry a schema of their own and a
    dialect. *)
Lemma generate_sql_reads_only_question_witness :
  MockPage.crowded_inputs !! "self" = None
  /\ MockPage.crowded_inputs !! "question" = Some (VStr Mock.question)
  /\ (GradioApp.generate_sql Mock.one_row_db Mock.helpful_llm
        MockPage.crowded_inputs Mock.start
      = GradioApp.generate_sql Mock.one_row_db Mock.helpful_llm
          {["question" := VStr Mock.question]} Mock.start
      /\ App.generate_sql Mock.helpful_llm None MockPage.crowded_inputs Mock.start
         = App.generate_sql Mock.helpful_llm None
             {["question" := VStr Mock.question]} Mock.start).
Proof.
  assert (H : MockPage.crowded_inputs !! "question" = Some (VStr Mock.question)).
  { unfold MockPage.crowded_inputs.
    rewrite !lookup_insert_ne by discriminate.
    apply lookup_singleton_eq. }
  assert (Hs : MockPage.crowded_inputs !! "self" = None).
  { unfold MockPage.crowded_inputs.
    rewrite !lookup_insert_ne by discriminate.
    apply lookup_singleton_ne. discriminate. }
  split; [exact Hs|].
  split; [exact H|].
  exact (generate_sql_reads_only_question Mock.one_row_db Mock.helpful_llm None
           MockPage.crowded_inputs (VStr Mock.question) Mock.start Hs H).
Defined.

(** X2 at the empty dictionary. *)
Lemma generate_sql_without_question_witness :
  (∅ : gmap string value) !! "question" = None
  /\ exists e r st',
       GradioApp.generate_sql Mock.one_row_db Mock.helpful_llm ∅ Mock.start
       = (Raise e, st')
       /\ App.generate_sql Mock.helpful_llm (Some Mock.one_row_db) ∅ Mock.start
          = (Raise e, st')
       /\ calls st' = calls Mock.start ++ [GetTableInfo r]
       /\ (forall e', r = Raise e' -> e = e').
Proof.
  split.
  - apply lookup_empty.
  - exact (generate_sql_without_question Mock.one_row_db Mock.helpful_llm ∅
             Mock.start (lookup_empty _)).
Defined.

(** X6 at a database that rejects the statement. *)
Lemma page_reports_execution_error_witness :
  App.execute_clicked MockPage.ask = true
  /\ strip (query_input MockPage.ask) <> []
  /\ get_table_info Mock.rejecting_db (world Mock.start)
     = (Ok Mock.schema_text, 1%nat)
  /\ invoke Mock.helpful_llm
       (sql_messages Mock.schema_text (query_input MockPage.ask)) 1%nat
     = (Ok (mkAIMessage Mock.sql_reply), 2%nat)
  /\ run Mock.rejecting_db (strip (content (mkAIMessage Mock.sql_reply))) 2%nat
     = (Raise (mkException (lit "no such table: Invoice2")), 3%nat)
  /\ exc_message (mkException (lit "no such table: Invoice2")) <> []
  /\ exists st',
       App.main (Some Mock.rejecting_db) (Some Mock.helpful_llm) MockPage.ask Mock.start
       = (Ok tt, st')
       /\ page st'
          = page Mock.start
            ++ [StError (lit "Error: SQL Error: "
                         ++ exc_message (mkException (lit "no such table: Invoice2")))]
       /\ query_history st' = query_history Mock.start
       /\ calls st'
          = calls Mock.start
            ++ [ GetTableInfo (Ok Mock.schema_text);
                 Invoke (sql_messages Mock.schema_text (query_input MockPage.ask))
                   (Ok (mkAIMessage Mock.sql_reply));
                 Run (strip (content (mkAIMessage Mock.sql_reply)))
                   (Raise (mkException (lit "no such table: Invoice2"))) ]
       /\ world st' = 3%nat.
Proof.
  assert (Hq : strip (query_input MockPage.ask) <> []) by (vm_compute; discriminate).
  assert (Hm : exc_message (mkException (lit "no such table: Invoice2")) <> [])
    by (vm_compute; discriminate).
  split; [reflexivity|].
  split; [exact Hq|].
  split; [reflexivity|].
  split; [reflexivity|].
  split; [reflexivity|].
  split; [exact Hm|].
  exact (page_reports_execution_error Mock.rejecting_db Mock.helpful_llm
           MockPage.ask Mock.start Mock.schema_text 1%nat
           (mkAIMessage Mock.sql_reply) 2%nat
           (mkException (lit "no such table: Invoice2")) 3%nat
           eq_refl Hq eq_refl eq_refl eq_refl Hm).
Defined.

(** X9 at the second button of a history of seven requests. *)
Lemma history_button_meaning_witness :
  AppPage.history_buttons MockPage.history !! 1%nat = Some MockPage.second_button
  /\ ((1 < 5)%nat
      /\ (1 < List.length MockPage.history)%nat
      /\ (exists answer,
            MockPage.history !! (List.length MockPage.history - 1 - 1)%nat
            = Some (AppPage.button_query MockPage.second_button, answer))
      /\ AppPage.button_label MockPage.second_button
         = lit "Query "
           ++ AppPage.decimal (Z.of_nat (List.length MockPage.history - 1))
      /\ AppPage.button_key MockPage.second_button
         = lit "history_" ++ AppPage.decimal (Z.of_nat 1)).
Proof.
  assert (H : AppPage.history_buttons MockPage.history !! 1%nat
              = Some MockPage.second_button) by (vm_compute; reflexivity).
  split.
  - exact H.
  - exact (history_button_meaning MockPage.history 1%nat MockPage.second_button H).
Defined.

(** X11 at the same button, the only one that fires. *)
Lemma history_click_selects_witness :
  AppPage.history_buttons MockPage.history !! 1%nat = Some MockPage.second_button
  /\ (forall k,
        MockPage.only_second k = true
        <-> k = AppPage.button_key MockPage.second_button)
  /\ (AppPage.select_query MockPage.only_second
        (AppPage.history_buttons MockPage.history)
      = Some (AppPage.button_query MockPage.second_button)
      /\ exists answer,
           MockPage.history !! (List.length MockPage.history - 1 - 1)%nat
           = Some (AppPage.button_query MockPage.second_button, answer)).
Proof.
  assert (H : AppPage.history_buttons MockPage.history !! 1%nat
              = Some MockPage.second_button) by (vm_compute; reflexivity).
  assert (Hf : forall k,
             MockPage.only_second k = true
             <-> k = AppPage.button_key MockPage.second_button).
  { intros k. unfold MockPage.only_second. apply bool_decide_eq_true. }
  split; [exact H|].
  split; [exact Hf|].
  exact (history_click_selects MockPage.history MockPage.only_second 1%nat
           MockPage.second_button H Hf).
Defined.

(** X15 at the sample question. *)
Lemma front_ends_share_the_pipeline_witness :
  strip Mock.question <> []
  /\ exists gradio app,
       calls (snd (GradioApp.process_query Mock.one_row_db Mock.helpful_llm
                     Mock.question Mock.start))
       = calls Mock.start ++ gradio
       /\ calls (snd (App.answer_user_query Mock.question Mock.helpful_llm
                        (Some Mock.one_row_db) Mock.start))
          = calls Mock.start ++ app
       /\ take 4 gradio = take 4 app
       /\ List.length gradio = List.length app
       /\ (forall tell r,
             gradio !! 4%nat = Some (Invoke tell r) ->
             exists schema sql raw r',
               tell = answer_messages (lit "        ") schema Mock.question sql raw
               /\ app !! 4%nat
                  = Some (Invoke (answer_messages (lit "    ") schema Mock.question
                                    sql raw) r')).
Proof.
  assert (H : strip Mock.question <> []) by (vm_compute; discriminate).
  split.
  - exact H.
  - exact (front_ends_share_the_pipeline Mock.one_row_db Mock.helpful_llm
             Mock.question Mock.start H).
Defined.
